(** * touch: update file access and modification times

    A shallow embedding of [src/touch.c] (somnisoft/touch) together with the
    error-injection seams of [test/seams.c], and the properties of its
    time-specification parsers and of the timestamp policy of [touch_main].

    Conventions of the embedding.
    - C strings are [string]s (no embedded NUL); reading the terminator yields
      the NUL character.  A [const char *] cursor into a string is the offset
      of the character it points to.
    - [int], [long], [time_t] and [size_t] values are [Z] or [nat]; the
      platform is LP64 ([long] and [time_t] are 64 bits wide), and no
      computation of the program leaves these ranges on the inputs it accepts.
    - [double] values are IEEE-754 binary64 numbers, [spec_float] with
      precision 53 and maximal exponent 1024.
    - The process environment (the variable TZ, the file system, the clock,
      the seam counters, and the record of the library calls made so far) is
      a [world] threaded through every function that performs a call. *)

From Stdlib Require Import ZArith List String Ascii Bool Lia.
From Stdlib Require Import Floats.SpecFloat.
Import ListNotations.

Local Open Scope string_scope.
Local Open Scope Z_scope.

(* ================================================================== *)
(** * The C library, as far as the program uses it *)
(* ================================================================== *)

Module Libc.

(** ** <ctype.h> and <string.h> in the C locale *)

Definition NUL : ascii := Ascii.ascii_of_nat 0.

Definition isdigit (c : ascii) : bool :=
  let n := Z.of_nat (nat_of_ascii c) in (48 <=? n) && (n <=? 57).

Definition isspace (c : ascii) : bool :=
  let n := Z.of_nat (nat_of_ascii c) in (n =? 32) || ((9 <=? n) && (n <=? 13)).

(** Value of a decimal digit character, [c - '0']. *)
Definition digit_val (c : ascii) : Z := Z.of_nat (nat_of_ascii c) - 48.

Definition strlen (s : string) : nat := String.length s.

(** [s[i]], the terminator included. *)
Definition char_at (s : string) (i : nat) : ascii :=
  match String.get i s with Some c => c | None => NUL end.

(** The suffix of [s] a cursor at offset [i] points to. *)
Fixpoint str_from (s : string) (i : nat) {struct i} : string :=
  match i, s with
  | O, _ => s
  | S i', String _ s' => str_from s' i'
  | S _, EmptyString => EmptyString
  end.

(** [strchr(s, c) != NULL] for a character [c] other than NUL. *)
Fixpoint strchr (s : string) (c : ascii) : bool :=
  match s with
  | EmptyString => false
  | String c' s' => if Ascii.eqb c' c then true else strchr s' c
  end.

(** [s[i] = c] on a buffer holding the string [s], [i < strlen(s)]. *)
Fixpoint str_set (s : string) (i : nat) (c : ascii) : string :=
  match s, i with
  | EmptyString, _ => EmptyString
  | String _ s', O => String c s'
  | String c' s', S i' => String c' (str_set s' i' c)
  end.

(** ** <time.h>: broken-down time *)

(** [struct tm], without [tm_wday] and [tm_yday]: [strptime] computes them,
    [mktime] ignores them and the program never reads them. *)
Record tm : Type := mk_tm {
  tm_sec : Z;
  tm_min : Z;
  tm_hour : Z;
  tm_mday : Z;
  tm_mon : Z;
  tm_year : Z;
  tm_isdst : Z
}.

Definition tm_zero : tm := mk_tm 0 0 0 0 0 0 0.

Definition set_tm_sec (t : tm) (v : Z) : tm :=
  mk_tm v (tm_min t) (tm_hour t) (tm_mday t) (tm_mon t) (tm_year t) (tm_isdst t).
Definition set_tm_min (t : tm) (v : Z) : tm :=
  mk_tm (tm_sec t) v (tm_hour t) (tm_mday t) (tm_mon t) (tm_year t) (tm_isdst t).
Definition set_tm_hour (t : tm) (v : Z) : tm :=
  mk_tm (tm_sec t) (tm_min t) v (tm_mday t) (tm_mon t) (tm_year t) (tm_isdst t).
Definition set_tm_mday (t : tm) (v : Z) : tm :=
  mk_tm (tm_sec t) (tm_min t) (tm_hour t) v (tm_mon t) (tm_year t) (tm_isdst t).
Definition set_tm_mon (t : tm) (v : Z) : tm :=
  mk_tm (tm_sec t) (tm_min t) (tm_hour t) (tm_mday t) v (tm_year t) (tm_isdst t).
Definition set_tm_year (t : tm) (v : Z) : tm :=
  mk_tm (tm_sec t) (tm_min t) (tm_hour t) (tm_mday t) (tm_mon t) v (tm_isdst t).
Definition set_tm_isdst (t : tm) (v : Z) : tm :=
  mk_tm (tm_sec t) (tm_min t) (tm_hour t) (tm_mday t) (tm_mon t) (tm_year t) v.

(** ** strptime

    The conversions the program's formats use (%Y %C %y %m %d %H %M %S %T,
    white space and ordinary characters), following the GNU C library:
    a numeric field skips leading white space, then reads at most [n] digits
    and stops early when another digit would exceed the field's maximum. *)

Fixpoint skip_space (rp : string) : string :=
  match rp with
  | String c rp' => if isspace c then skip_space rp' else rp
  | EmptyString => rp
  end.

(** The do-while loop of [get_number]: [c] is the digit under the cursor,
    [rp] what follows it, [n] the number of digits still allowed. *)
Fixpoint get_number_loop (n : nat) (to val : Z) (c : ascii) (rp : string)
  : Z * string :=
  let val' := val * 10 + digit_val c in
  match n with
  | S (S _ as n') =>
      if val' * 10 <=? to then
        match rp with
        | String c' rp' =>
            if isdigit c' then get_number_loop n' to val' c' rp' else (val', rp)
        | EmptyString => (val', rp)
        end
      else (val', rp)
  | _ => (val', rp)
  end.

Definition get_number (from to : Z) (n : nat) (rp : string)
  : option (Z * string) :=
  match skip_space rp with
  | String c rp' =>
      if isdigit c then
        let (val, rest) := get_number_loop n to 0 c rp' in
        if (val <? from) || (to <? val) then None else Some (val, rest)
      else None
  | EmptyString => None
  end.

(** [match_char]: an ordinary character of the format must be the next
    character of the input. *)
Definition match_char (c : ascii) (rp : string) : option string :=
  match rp with
  | String c' rp' => if Ascii.eqb c c' then Some rp' else None
  | EmptyString => None
  end.

(** What [strptime] keeps besides the [struct tm] it fills: the century of a
    %C, if any, and whether a two-digit year still wants one. *)
Record strptime_state : Type := mk_sps {
  sps_tm : tm;
  sps_century : option Z;
  sps_want_century : bool
}.

Definition sps_with_tm (s : strptime_state) (t : tm) : strptime_state :=
  mk_sps t (sps_century s) (sps_want_century s).

(** One conversion specification [%d]. *)
Definition strptime_conv (d : ascii) (rp : string) (s : strptime_state)
  : option (string * strptime_state) :=
  let t := sps_tm s in
  if Ascii.eqb d "Y"%char then
    match get_number 0 9999 4 rp with
    | Some (v, rp') =>
        Some (rp', mk_sps (set_tm_year t (v - 1900)) (sps_century s) false)
    | None => None
    end
  else if Ascii.eqb d "C"%char then
    match get_number 0 99 2 rp with
    | Some (v, rp') => Some (rp', mk_sps t (Some v) (sps_want_century s))
    | None => None
    end
  else if Ascii.eqb d "y"%char then
    match get_number 0 99 2 rp with
    | Some (v, rp') =>
        Some (rp', mk_sps (set_tm_year t (if 69 <=? v then v else v + 100))
                          (sps_century s) true)
    | None => None
    end
  else if Ascii.eqb d "m"%char then
    match get_number 1 12 2 rp with
    | Some (v, rp') => Some (rp', sps_with_tm s (set_tm_mon t (v - 1)))
    | None => None
    end
  else if Ascii.eqb d "d"%char then
    match get_number 1 31 2 rp with
    | Some (v, rp') => Some (rp', sps_with_tm s (set_tm_mday t v))
    | None => None
    end
  else if Ascii.eqb d "H"%char then
    match get_number 0 23 2 rp with
    | Some (v, rp') => Some (rp', sps_with_tm s (set_tm_hour t v))
    | None => None
    end
  else if Ascii.eqb d "M"%char then
    match get_number 0 59 2 rp with
    | Some (v, rp') => Some (rp', sps_with_tm s (set_tm_min t v))
    | None => None
    end
  else if Ascii.eqb d "S"%char then
    match get_number 0 61 2 rp with
    | Some (v, rp') => Some (rp', sps_with_tm s (set_tm_sec t v))
    | None => None
    end
  else if Ascii.eqb d "T"%char then
    (* %T is %H:%M:%S *)
    match get_number 0 23 2 rp with
    | Some (h, rp1) =>
        match match_char ":"%char rp1 with
        | Some rp2 =>
            match get_number 0 59 2 rp2 with
            | Some (m, rp3) =>
                match match_char ":"%char rp3 with
                | Some rp4 =>
                    match get_number 0 61 2 rp4 with
                    | Some (sec, rp5) =>
                        Some (rp5,
                              sps_with_tm s
                                (set_tm_sec (set_tm_min (set_tm_hour t h) m) sec))
                    | None => None
                    end
                | None => None
                end
            | None => None
            end
        | None => None
        end
    | None => None
    end
  else None.

Fixpoint strptime_loop (fmt : string) (rp : string) (s : strptime_state)
  : option (string * strptime_state) :=
  match fmt with
  | EmptyString => Some (rp, s)
  | String "%"%char (String d fmt') =>
      match strptime_conv d rp s with
      | Some (rp', s') => strptime_loop fmt' rp' s'
      | None => None
      end
  | String c fmt' =>
      if isspace c then strptime_loop fmt' (skip_space rp) s
      else
        match match_char c rp with
        | Some rp' => strptime_loop fmt' rp' s
        | None => None
        end
  end.

(** The year is completed once the whole format has been matched. *)
Definition strptime_finish (s : strptime_state) : tm :=
  let t := sps_tm s in
  match sps_century s with
  | Some c =>
      if sps_want_century s
      then set_tm_year t (Z.rem (tm_year t) 100 + (c - 19) * 100)
      else set_tm_year t ((c - 19) * 100)
  | None => t
  end.

(** [strptime(buf, fmt, &tm)]: [None] for a NULL result, otherwise the
    number of characters consumed and the [struct tm] as it is left. *)
Definition strptime (buf fmt : string) (t : tm) : option (nat * tm) :=
  match strptime_loop fmt buf (mk_sps t None false) with
  | Some (rest, s) =>
      Some ((String.length buf - String.length rest)%nat, strptime_finish s)
  | None => None
  end.

End Libc.

(* ================================================================== *)
(** * Floating point and calendar arithmetic of the C library *)
(* ================================================================== *)

Module LibcNum.
Import Libc.

(** ** <errno.h> (Linux numbering) *)

Definition ENOENT : Z := 2.
Definition ENOMEM : Z := 12.
Definition EACCES : Z := 13.
Definition EINVAL : Z := 22.
Definition ERANGE : Z := 34.
Definition EOVERFLOW : Z := 75.

(** ** IEEE-754 binary64 *)

Definition double : Type := spec_float.

Definition prec : Z := 53.
Definition emax : Z := 1024.

Definition LONG_MAX : Z := 9223372036854775807.
Definition LONG_MIN : Z := - 9223372036854775808.

(** Conversion of an integer to [double], round to nearest even. *)
Definition double_of_Z (n : Z) : double := binary_normalize prec emax n 0 false.

Definition double_mul (x y : double) : double := SFmul prec emax x y.

(** The integer part of a finite double, rounded toward zero. *)
Definition double_trunc (x : double) : option Z :=
  match x with
  | S754_zero _ => Some 0
  | S754_finite s m e =>
      let a := if 0 <=? e then Z.shiftl (Zpos m) e
               else Z.quot (Zpos m) (2 ^ (- e)) in
      Some (if s then - a else a)
  | _ => None
  end.

(** The cast [(long)x]: truncation toward zero; a value that does not fit
    (the C standard leaves it undefined) yields [LONG_MIN], as the x86-64
    conversion instruction does. *)
Definition double_to_long (x : double) : Z :=
  match double_trunc x with
  | Some n => if (LONG_MIN <=? n) && (n <=? LONG_MAX) then n else LONG_MIN
  | None => LONG_MIN
  end.

(** The number of decimal digits of a positive integer, that is
    [(size_t)(log10(n) + 1)] for an [n] that is not a power of ten;
    [fuel] bounds the number of digits. *)
Fixpoint decimal_digits_aux (fuel : nat) (n : Z) : nat :=
  match fuel with
  | O => O
  | S fuel' => if n <=? 0 then O else S (decimal_digits_aux fuel' (n / 10))
  end.

Definition decimal_digits (n : Z) : nat := decimal_digits_aux 64 n.

(** ** strtod

    Decimal literals without sign, exponent or leading white space:
    digits with at most one decimal point.  The program only ever converts
    a buffer made of a point followed by digits.  The literal is rounded
    correctly (to nearest, ties to even). *)

Fixpoint span_digits (s : string) : string * string :=
  match s with
  | String c s' =>
      if isdigit c then let (ds, rest) := span_digits s' in (String c ds, rest)
      else (EmptyString, s)
  | EmptyString => (EmptyString, EmptyString)
  end.

(** The number a string of digits denotes, most significant digit first. *)
Fixpoint digits_value (acc : Z) (ds : string) : Z :=
  match ds with
  | String c ds' => digits_value (acc * 10 + digit_val c) ds'
  | EmptyString => acc
  end.

(** The double nearest to [n / 10^k], for [0 <= n]. *)
Definition decimal_to_double (n : Z) (k : nat) : double :=
  match n, 10 ^ Z.of_nat k with
  | Zpos p, Zpos q =>
      SFdiv prec emax (S754_finite false p 0) (S754_finite false q 0)
  | _, _ => S754_zero false
  end.

(** Whether the exact value [n / 10^k] lies outside the normal range of
    binary64: nonzero below [2^-1022] (underflow), or rounding to infinity
    (overflow).  These are the cases in which [strtod] sets [ERANGE]. *)
Definition decimal_range_error (n : Z) (k : nat) : bool :=
  let d := 10 ^ Z.of_nat k in
  ((0 <? n) && (n * 2 ^ 1022 <? d))
  || (d * (2 ^ 1024 - 2 ^ 970) <=? n).

(** What a call of [strtod] leaves: the value, the offset [endptr - nptr],
    and the [errno] it sets (0 when it sets none). *)
Record strtod_result : Type := mk_strtod {
  sd_value : double;
  sd_end : nat;
  sd_errno : Z
}.

(** [einval_on_noconv]: whether the library sets [errno] to [EINVAL] when it
    performs no conversion.  POSIX leaves this open ("may fail"); the GNU C
    library does not set it. *)
Definition strtod (einval_on_noconv : bool) (nptr : string) : strtod_result :=
  let (ip, s1) := span_digits nptr in
  let (fp, s2) :=
    match s1 with
    | String "."%char s1' => span_digits s1'
    | _ => (EmptyString, s1)
    end in
  match ip, fp with
  | EmptyString, EmptyString =>
      mk_strtod (S754_zero false) O
                (if einval_on_noconv then EINVAL else 0)
  | _, _ =>
      let n := digits_value 0 (ip ++ fp) in
      let v := decimal_to_double n (String.length fp) in
      mk_strtod v (String.length nptr - String.length s2)%nat
                (if decimal_range_error n (String.length fp) then ERANGE else 0)
  end.

(** ** timegm: seconds since the epoch of a broken-down UTC time *)

(** Days from 1970-01-01 to the civil date [y]-[m]-[d], [1 <= m <= 12]. *)
Definition days_from_civil (y m d : Z) : Z :=
  let y' := if m <=? 2 then y - 1 else y in
  let era := y' / 400 in
  let yoe := y' - era * 400 in
  let mp := if 2 <? m then m - 3 else m + 9 in
  let doy := (153 * mp + 2) / 5 + d - 1 in
  let doe := yoe * 365 + yoe / 4 - yoe / 100 + doy in
  era * 146097 + doe - 719468.

(** Fields out of their range are carried over, as [mktime] does. *)
Definition timegm (t : tm) : Z :=
  let y := tm_year t + 1900 + tm_mon t / 12 in
  let m := tm_mon t mod 12 + 1 in
  (days_from_civil y m 1 + (tm_mday t - 1)) * 86400
  + tm_hour t * 3600 + tm_min t * 60 + tm_sec t.

End LibcNum.

Import Libc LibcNum.

(* ================================================================== *)
(** * The process environment and the test seams *)
(* ================================================================== *)

(** [struct timespec]. *)
Record timespec : Type := mk_timespec {
  tv_sec : Z;
  tv_nsec : Z
}.

(** <sys/stat.h> (Linux): the two reserved [tv_nsec] values of
    [futimens] and [utimensat]. *)
Definition UTIME_NOW : Z := Z.shiftl 1 30 - 1.
Definition UTIME_OMIT : Z := Z.shiftl 1 30 - 2.

Definition EXIT_SUCCESS : Z := 0.
Definition EXIT_FAILURE : Z := 1.

(** What the file system keeps of a file, as far as [touch] can tell. *)
Record file : Type := mk_file {
  st_atim : timespec;
  st_mtim : timespec;
  f_readable : bool
}.

(** The library calls of a run, and the warnings printed on STDERR. *)
Inductive event : Type :=
| EvWarn (errno_msg : bool) (fmt : string)
| EvMalloc (size : nat)
| EvStrtod (nptr : string)
| EvSetenv (envname envval : string)
| EvMktime (timeptr : tm)
| EvStat (path : string)
| EvOpen (path : string)
| EvCreat (path : string)
| EvFutimens (path : string) (times : timespec * timespec)
| EvUtimensat (path : string) (times : timespec * timespec).

(** The error counters of [test/seams.c]. *)
Record seam_counters : Type := mk_seams {
  g_test_seam_err_ctr_futimens : Z;
  g_test_seam_err_ctr_malloc : Z;
  g_test_seam_err_ctr_mktime : Z;
  g_test_seam_err_ctr_setenv : Z;
  g_test_seam_err_ctr_strtod : Z;
  g_test_seam_err_ctr_utimensat : Z
}.

Record world : Type := mk_world {
  (** the environment variables *)
  w_env : string -> option string;
  (** the files, by path *)
  w_files : string -> option file;
  w_seams : seam_counters;
  (** calls and warnings so far, the latest first *)
  w_trace : list event;
  (** the clock *)
  w_now : timespec;
  (** what [mktime] returns under the zone the process inherited *)
  w_local_mktime : tm -> Z;
  (** whether [creat] may create the path *)
  w_creat_ok : string -> bool;
  (** whether [strtod] sets [errno] when it converts nothing *)
  w_strtod_einval : bool
}.

Definition set_env (w : world) (e : string -> option string) : world :=
  mk_world e (w_files w) (w_seams w) (w_trace w) (w_now w)
           (w_local_mktime w) (w_creat_ok w) (w_strtod_einval w).
Definition set_files (w : world) (f : string -> option file) : world :=
  mk_world (w_env w) f (w_seams w) (w_trace w) (w_now w)
           (w_local_mktime w) (w_creat_ok w) (w_strtod_einval w).
Definition set_seams (w : world) (s : seam_counters) : world :=
  mk_world (w_env w) (w_files w) s (w_trace w) (w_now w)
           (w_local_mktime w) (w_creat_ok w) (w_strtod_einval w).
Definition log (e : event) (w : world) : world :=
  mk_world (w_env w) (w_files w) (w_seams w) (e :: w_trace w) (w_now w)
           (w_local_mktime w) (w_creat_ok w) (w_strtod_einval w).

(** ** A state monad over the world *)

Definition M (A : Type) : Type := world -> A * world.

Definition ret {A : Type} (a : A) : M A := fun w => (a, w).

Definition bind {A B : Type} (m : M A) (k : A -> M B) : M B :=
  fun w => let (a, w') := m w in k a w'.

Definition emit (e : event) : M unit := fun w => (tt, log e w).

Declare Scope touch_scope.
Delimit Scope touch_scope with touch.
Notation "x <- m ;; k" := (bind m (fun x => k))
  (at level 61, m at next level, right associativity) : touch_scope.
Notation "m ;;; k" := (bind m (fun _ => k))
  (at level 61, right associativity) : touch_scope.
Local Open Scope touch_scope.

(** ** test/seams.c *)

(** [test_seam_dec_err_ctr]: whether the counter has just reached -1, and
    the counter as it is left. *)
Definition test_seam_dec_err_ctr (err_ctr : Z) : bool * Z :=
  if 0 <=? err_ctr
  then (err_ctr - 1 <? 0, err_ctr - 1)
  else (false, err_ctr).

Definition with_futimens (s : seam_counters) (v : Z) : seam_counters :=
  mk_seams v (g_test_seam_err_ctr_malloc s) (g_test_seam_err_ctr_mktime s)
           (g_test_seam_err_ctr_setenv s) (g_test_seam_err_ctr_strtod s)
           (g_test_seam_err_ctr_utimensat s).
Definition with_malloc (s : seam_counters) (v : Z) : seam_counters :=
  mk_seams (g_test_seam_err_ctr_futimens s) v (g_test_seam_err_ctr_mktime s)
           (g_test_seam_err_ctr_setenv s) (g_test_seam_err_ctr_strtod s)
           (g_test_seam_err_ctr_utimensat s).
Definition with_mktime (s : seam_counters) (v : Z) : seam_counters :=
  mk_seams (g_test_seam_err_ctr_futimens s) (g_test_seam_err_ctr_malloc s) v
           (g_test_seam_err_ctr_setenv s) (g_test_seam_err_ctr_strtod s)
           (g_test_seam_err_ctr_utimensat s).
Definition with_setenv (s : seam_counters) (v : Z) : seam_counters :=
  mk_seams (g_test_seam_err_ctr_futimens s) (g_test_seam_err_ctr_malloc s)
           (g_test_seam_err_ctr_mktime s) v (g_test_seam_err_ctr_strtod s)
           (g_test_seam_err_ctr_utimensat s).
Definition with_strtod (s : seam_counters) (v : Z) : seam_counters :=
  mk_seams (g_test_seam_err_ctr_futimens s) (g_test_seam_err_ctr_malloc s)
           (g_test_seam_err_ctr_mktime s) (g_test_seam_err_ctr_setenv s) v
           (g_test_seam_err_ctr_utimensat s).
Definition with_utimensat (s : seam_counters) (v : Z) : seam_counters :=
  mk_seams (g_test_seam_err_ctr_futimens s) (g_test_seam_err_ctr_malloc s)
           (g_test_seam_err_ctr_mktime s) (g_test_seam_err_ctr_setenv s)
           (g_test_seam_err_ctr_strtod s) v.

(** Decrement one counter of the world; the result tells whether the seam
    makes the call fail. *)
Definition seam (get : seam_counters -> Z)
                (put : seam_counters -> Z -> seam_counters) : M bool :=
  fun w =>
    let (fail, ctr) := test_seam_dec_err_ctr (get (w_seams w)) in
    (fail, set_seams w (put (w_seams w) ctr)).

(** The result of a system call: success, or the [errno] of its failure. *)
Inductive sysret : Type :=
| Ok
| Err (errno : Z).

Definition failed (r : sysret) : bool :=
  match r with Ok => false | Err _ => true end.

(** [test_seam_malloc]: whether the allocation succeeded. *)
Definition test_seam_malloc (size : nat) : M bool :=
  emit (EvMalloc size) ;;;
  fail <- seam g_test_seam_err_ctr_malloc with_malloc ;;
  ret (negb fail).

(** [test_seam_strtod]: a forced failure sets [ERANGE], returns 0 and
    leaves [endptr] alone. *)
Definition test_seam_strtod (nptr : string) : M strtod_result :=
  emit (EvStrtod nptr) ;;;
  fail <- seam g_test_seam_err_ctr_strtod with_strtod ;;
  if fail then ret (mk_strtod (S754_zero false) 0 ERANGE)
  else fun w => (strtod (w_strtod_einval w) nptr, w).

(** [setenv(envname, envval, 1)] of the C library. *)
Definition setenv (envname envval : string) : M sysret :=
  fun w =>
    (Ok, set_env w (fun n => if String.eqb n envname then Some envval
                             else w_env w n)).

Definition test_seam_setenv (envname envval : string) : M sysret :=
  emit (EvSetenv envname envval) ;;;
  fail <- seam g_test_seam_err_ctr_setenv with_setenv ;;
  if fail then ret (Err EINVAL) else setenv envname envval.

(** [mktime] of the C library: under [TZ=UTC] the broken-down time is a UTC
    time; otherwise the zone the process inherited decides. *)
Definition mktime (timeptr : tm) : M Z :=
  fun w =>
    (match w_env w "TZ" with
     | Some tz => if String.eqb tz "UTC" then timegm timeptr
                  else w_local_mktime w timeptr
     | None => w_local_mktime w timeptr
     end, w).

(** [test_seam_mktime]: a forced failure returns [(time_t)-1]. *)
Definition test_seam_mktime (timeptr : tm) : M Z :=
  emit (EvMktime timeptr) ;;;
  fail <- seam g_test_seam_err_ctr_mktime with_mktime ;;
  if fail then ret (-1) else mktime timeptr.

(** ** The file system *)

Definition stat (path : string) : M (option file) :=
  emit (EvStat path) ;;;
  fun w => (w_files w path, w).

(** [open(path, O_RDONLY)]. *)
Definition open (path : string) : M sysret :=
  emit (EvOpen path) ;;;
  fun w =>
    (match w_files w path with
     | None => Err ENOENT
     | Some f => if f_readable f then Ok else Err EACCES
     end, w).

Definition put_file (path : string) (f : file) : M unit :=
  fun w =>
    (tt, set_files w (fun p => if String.eqb p path then Some f
                               else w_files w p)).

(** [creat(path, 0666)] on a path that does not exist. *)
Definition creat (path : string) : M sysret :=
  emit (EvCreat path) ;;;
  fun w =>
    if w_creat_ok w path
    then (Ok, snd (put_file path (mk_file (w_now w) (w_now w) true) w))
    else (Err EACCES, w).

(** One timestamp as [futimens] and [utimensat] store it. *)
Definition stored_time (now old new : timespec) : timespec :=
  if tv_nsec new =? UTIME_NOW then now
  else if tv_nsec new =? UTIME_OMIT then old
  else new.

Definition valid_nsec (t : timespec) : bool :=
  (tv_nsec t =? UTIME_NOW) || (tv_nsec t =? UTIME_OMIT)
  || ((0 <=? tv_nsec t) && (tv_nsec t <? 1000000000)).

(** What [futimens] and [utimensat] do to the file at [path]. *)
Definition set_file_times (path : string) (times : timespec * timespec)
  : M sysret :=
  fun w =>
    match w_files w path with
    | None => (Err ENOENT, w)
    | Some f =>
        if valid_nsec (fst times) && valid_nsec (snd times) then
          (Ok, snd (put_file path
                      (mk_file (stored_time (w_now w) (st_atim f) (fst times))
                               (stored_time (w_now w) (st_mtim f) (snd times))
                               (f_readable f)) w))
        else (Err EINVAL, w)
    end.

Definition test_seam_futimens (path : string) (times : timespec * timespec)
  : M sysret :=
  emit (EvFutimens path times) ;;;
  fail <- seam g_test_seam_err_ctr_futimens with_futimens ;;
  if fail then ret (Err EINVAL) else set_file_times path times.

Definition test_seam_utimensat (path : string) (times : timespec * timespec)
  : M sysret :=
  emit (EvUtimensat path times) ;;;
  fail <- seam g_test_seam_err_ctr_utimensat with_utimensat ;;
  if fail then ret (Err EINVAL) else set_file_times path times.

(* ================================================================== *)
(** * touch.c *)
(* ================================================================== *)

Definition MAX_TIME_FMT_LEN : nat := 16.
Definition MAX_DATE_TIME_FMT_LEN : nat := 12.

(** Maximum length for long type (nanoseconds) in fractional specifier:
    [(size_t)(log10(LONG_MAX) + 1)], as [touch_parse_date_time] sets it
    before it calls [touch_parse_frac]. *)
Definition MAX_FRAC_CHAR_LEN : nat := decimal_digits LONG_MAX.

Definition TOUCH_FLAG_ACCESS_TIME : Z := Z.shiftl 1 0.
Definition TOUCH_FLAG_NO_CREATE : Z := Z.shiftl 1 1.
Definition TOUCH_FLAG_MOD_TIME : Z := Z.shiftl 1 2.
Definition TOUCH_FLAG_REF_FILE : Z := Z.shiftl 1 3.
Definition TOUCH_FLAG_TIME : Z := Z.shiftl 1 4.
Definition TOUCH_FLAG_DATE_TIME : Z := Z.shiftl 1 5.

(** [struct touch]; [time_am] holds the access time and the modification
    time, in this order. *)
Record touch : Type := mk_touch {
  flags : Z;
  status_code : Z;
  time_am : timespec * timespec
}.

(** [memset(&touch, 0, sizeof(touch))]. *)
Definition touch_zero : touch :=
  mk_touch 0 0 (mk_timespec 0 0, mk_timespec 0 0).

Definition set_flags (t : touch) (f : Z) : touch :=
  mk_touch f (status_code t) (time_am t).
Definition set_status_code (t : touch) (c : Z) : touch :=
  mk_touch (flags t) c (time_am t).
Definition set_time_am (t : touch) (am : timespec * timespec) : touch :=
  mk_touch (flags t) (status_code t) am.

(** [time_am[0].tv_nsec = v; time_am[1].tv_nsec = v]. *)
Definition set_both_nsec (am : timespec * timespec) (v : Z)
  : timespec * timespec :=
  (mk_timespec (tv_sec (fst am)) v, mk_timespec (tv_sec (snd am)) v).

(** [time_am[0].tv_sec = v; time_am[1].tv_sec = v]. *)
Definition set_both_sec (am : timespec * timespec) (v : Z)
  : timespec * timespec :=
  (mk_timespec v (tv_nsec (fst am)), mk_timespec v (tv_nsec (snd am))).

Definition touch_warn (t : touch) (errno_msg : bool) (fmt : string) : M touch :=
  emit (EvWarn errno_msg fmt) ;;;
  ret (set_status_code t EXIT_FAILURE).

(** The loop of [touch_parse_frac] that copies digits into [frac_str]:
    [tp] is what the cursor points to, [room] the iterations left before
    [i] reaches [MAX_FRAC_CHAR_LEN]. *)
Fixpoint frac_copy (tp : string) (room : nat) : string :=
  match tp, room with
  | String c tp', S room' =>
      if isdigit c then String c (frac_copy tp' room') else EmptyString
  | _, _ => EmptyString
  end.

Definition CONV_FRAC_NSEC : Z := 1000000000.

(** [touch_parse_frac(touch, &time_parse)], the cursor [time_parse] being
    an offset into [str]: returns the context and the cursor as left. *)
Definition touch_parse_frac (t : touch) (str : string) (time_parse : nat)
  : M (touch * nat) :=
  let c := char_at str time_parse in
  if Ascii.eqb c "."%char || Ascii.eqb c ","%char then
    allocated <- test_seam_malloc (MAX_FRAC_CHAR_LEN + 1)%nat ;;
    if negb allocated then
      t' <- touch_warn t true "malloc: frac_str" ;;
      ret (t', time_parse)
    else
      let time_parse := (time_parse + 1)%nat in
      let frac_str :=
        String "."%char
               (frac_copy (str_from str time_parse) (MAX_FRAC_CHAR_LEN - 1)) in
      r <- test_seam_strtod frac_str ;;
      if negb (sd_errno r =? 0) then
        t' <- touch_warn t true "failed to parse frac" ;;
        ret (t', time_parse)
      else
        (* *time_parse += (ep - frac_str - 1) *)
        let time_parse := (time_parse + sd_end r - 1)%nat in
        let tv_nsec :=
          double_to_long (double_mul (sd_value r) (double_of_Z CONV_FRAC_NSEC)) in
        ret (set_time_am t (set_both_nsec (time_am t) tv_nsec), time_parse)
  else ret (t, time_parse).

Definition MIN_DATE_TIME : nat := 19.
Definition MAX_DATE_TIME : nat := (20 + MAX_FRAC_CHAR_LEN + 1)%nat.
Definition DATE_TIME_T_POS : nat := 10.

(** The first test of [touch_parse_date_time]: length and separator. *)
Definition date_time_rejected (date_time_str : string) : bool :=
  let slen := strlen date_time_str in
  (slen <? MIN_DATE_TIME)%nat
  || (MAX_DATE_TIME <=? slen)%nat
  || (negb (Ascii.eqb (char_at date_time_str DATE_TIME_T_POS) "T"%char)
      && negb (Ascii.eqb (char_at date_time_str DATE_TIME_T_POS) " "%char)).

(** The format [touch_parse_date_time] hands to [strptime]. *)
Definition date_time_fmt (date_time_str : string) : string :=
  str_set "%Y-%m-%d %T" 8 (char_at date_time_str DATE_TIME_T_POS).

Definition touch_parse_date_time (t : touch) (date_time_str : string)
  : M touch :=
  if date_time_rejected date_time_str then
    touch_warn t false "invalid date_time"
  else
    match strptime date_time_str (date_time_fmt date_time_str)
                   (set_tm_isdst tm_zero (-1)) with
    | None => touch_warn t true "failed to parse date_time"
    | Some (time_parse, tm) =>
        r <- touch_parse_frac t date_time_str time_parse ;;
        let t := fst r in
        let time_parse := snd r in
        r <- (if Ascii.eqb (char_at date_time_str time_parse) "Z"%char then
                rc <- test_seam_setenv "TZ" "UTC" ;;
                t <- (if failed rc then touch_warn t true "failed to set TZ"
                      else ret t) ;;
                ret (t, (time_parse + 1)%nat)
              else ret (t, time_parse)) ;;
        let t := fst r in
        let time_parse := snd r in
        if negb (status_code t =? 0)
           || negb (Ascii.eqb (char_at date_time_str time_parse) NUL) then
          touch_warn t false "failed to parse date_time"
        else
          tv_sec <- test_seam_mktime tm ;;
          t <- (if tv_sec =? -1 then touch_warn t true "mktime" else ret t) ;;
          ret (set_time_am t (set_both_sec (time_am t) tv_sec))
    end.

Definition MIN_TIME_LEN : nat := 8.
Definition MAX_TIME_LEN : nat := 15.

(** [slen_minus_sec] of [touch_parse_time]; [size_t] arithmetic cannot wrap
    here, as [slen] is at least 8. *)
Definition slen_minus_sec (time_str : string) : nat :=
  if strchr time_str "."%char then (strlen time_str - 3)%nat
  else strlen time_str.

(** The format [touch_parse_time] builds with [stpcpy]. *)
Definition time_fmt (time_str : string) : string :=
  (if (slen_minus_sec time_str =? 12)%nat then "%C" else "")
  ++ (if (10 <=? slen_minus_sec time_str)%nat then "%y" else "")
  ++ "%m%d%H%M"
  ++ (if strchr time_str "."%char then ".%S" else "").

Definition touch_parse_time (t : touch) (time_str : string) : M touch :=
  let slen := strlen time_str in
  if (slen <? MIN_TIME_LEN)%nat || (MAX_TIME_LEN <? slen)%nat then
    touch_warn t false "invalid time string"
  else
    match strptime time_str (time_fmt time_str) tm_zero with
    | None => touch_warn t true "invalid time string"
    | Some (time_parse, tm) =>
        if negb (Ascii.eqb (char_at time_str time_parse) NUL) then
          touch_warn t true "invalid time string"
        else
          tv_sec <- test_seam_mktime tm ;;
          t <- (if tv_sec =? -1 then touch_warn t true "mktime" else ret t) ;;
          ret (set_time_am t (set_both_sec (time_am t) tv_sec))
    end.

Definition touch_get_time_ref_file (t : touch) (path : string) : M touch :=
  sb <- stat path ;;
  match sb with
  | None => touch_warn t true "stat reference file: %s"
  | Some f => ret (set_time_am t (st_atim f, st_mtim f))
  end.

Definition has_flag (t : touch) (flag : Z) : bool :=
  negb (Z.land (flags t) flag =? 0).

Definition touch_path (t : touch) (path : string) : M touch :=
  fd <- open path ;;
  match fd with
  | Err errno =>
      if negb (errno =? ENOENT) then touch_warn t true "open: %s"
      else if negb (has_flag t TOUCH_FLAG_NO_CREATE) then
        fd <- creat path ;;
        if failed fd then touch_warn t true "creat: %s"
        else
          rc <- test_seam_futimens path (time_am t) ;;
          if failed rc then touch_warn t true "futimens: %s" else ret t
      else ret t
  | Ok =>
      rc <- test_seam_utimensat path (time_am t) ;;
      if failed rc then touch_warn t true "utimensat on: %s" else ret t
  end.

Definition touch_ensure_args_mutually_exclusive (t : touch) : bool :=
  let flags_exclusive :=
    Z.land (flags t)
           (Z.lor TOUCH_FLAG_REF_FILE
                  (Z.lor TOUCH_FLAG_TIME TOUCH_FLAG_DATE_TIME)) in
  if negb (flags_exclusive =? 0)
     && negb (flags_exclusive =? TOUCH_FLAG_REF_FILE)
     && negb (flags_exclusive =? TOUCH_FLAG_TIME)
     && negb (flags_exclusive =? TOUCH_FLAG_DATE_TIME)
  then false
  else true.

(** ** getopt

    [getopt] of the GNU C library, the library [strptime] is taken from.
    An option that takes an argument finds it in the rest of its word or in
    the next word, whatever that word is; ["--"] ends the options; an
    unknown option character and a missing argument are reported as ['?'].
    Words that are not options (["-"] alone, and words that do not start
    with ['-']) are operands.  By default the library permutes [argv]: it
    goes on reading options behind operands, and all operands are found
    from [optind] on, in their order, once it returns -1.  With the variable
    POSIXLY_CORRECT in the environment it stops at the first operand, as
    POSIX has it.  Each reported option is a character with its [optarg]. *)

Definition optstring : string := "acd:mr:t:".

(** Whether [c] is an option character, and whether it takes an argument. *)
Fixpoint opt_lookup (opts : string) (c : ascii) : option bool :=
  match opts with
  | EmptyString => None
  | String o opts' =>
      if Ascii.eqb o c && negb (Ascii.eqb c ":"%char) then
        Some match opts' with
             | String ":"%char _ => true
             | _ => false
             end
      else opt_lookup opts' c
  end.

(** The options of one word (without its leading ['-']); the flag tells
    whether the next word was taken as an argument. *)
Fixpoint getopt_word (word : string) (next : option string)
  : list (ascii * string) * bool :=
  match word with
  | EmptyString => ([], false)
  | String c word' =>
      match opt_lookup optstring c with
      | None =>
          let (os, used) := getopt_word word' next in
          (("?"%char, "") :: os, used)
      | Some false =>
          let (os, used) := getopt_word word' next in
          ((c, "") :: os, used)
      | Some true =>
          match word', next with
          | EmptyString, Some arg => ([(c, arg)], true)
          | EmptyString, None => ([("?"%char, "")], false)
          | _, _ => ([(c, word')], false)
          end
      end
  end.

(** All options of the argument words, and the operands left at [optind];
    [permute] tells whether options are read behind operands. *)
Fixpoint getopt_args (permute : bool) (args : list string)
  : list (ascii * string) * list string :=
  match args with
  | [] => ([], [])
  | arg :: rest =>
      match arg with
      | String "-"%char (String _ _ as word) =>
          if String.eqb arg "--" then ([], rest)
          else
            let (os, used) := getopt_word word (hd_error rest) in
            match rest with
            | [] => (os, [])
            | _ :: rest' =>
                let (os', operands) :=
                  if used then getopt_args permute rest'
                  else getopt_args permute rest in
                ((os ++ os')%list, operands)
            end
      | _ =>
          if permute then
            let (os, operands) := getopt_args permute rest in
            (os, arg :: operands)
          else ([], args)
      end
  end.

(** Whether [getopt] permutes: POSIXLY_CORRECT is not in the environment. *)
Definition getopt_permutes (w : world) : bool :=
  match w_env w "POSIXLY_CORRECT" with
  | Some _ => false
  | None => true
  end.

(** ** touch_main *)

(** The body of the [switch] for one option. *)
Definition touch_option (t : touch) (o : ascii * string) : M touch :=
  let (c, optarg) := o in
  if Ascii.eqb c "a"%char then
    ret (set_flags t (Z.lor (flags t) TOUCH_FLAG_ACCESS_TIME))
  else if Ascii.eqb c "c"%char then
    ret (set_flags t (Z.lor (flags t) TOUCH_FLAG_NO_CREATE))
  else if Ascii.eqb c "d"%char then
    t <- touch_parse_date_time t optarg ;;
    ret (set_flags t (Z.lor (flags t) TOUCH_FLAG_DATE_TIME))
  else if Ascii.eqb c "m"%char then
    ret (set_flags t (Z.lor (flags t) TOUCH_FLAG_MOD_TIME))
  else if Ascii.eqb c "r"%char then
    t <- touch_get_time_ref_file t optarg ;;
    ret (set_flags t (Z.lor (flags t) TOUCH_FLAG_REF_FILE))
  else if Ascii.eqb c "t"%char then
    t <- touch_parse_time t optarg ;;
    ret (set_flags t (Z.lor (flags t) TOUCH_FLAG_TIME))
  else ret (set_status_code t EXIT_FAILURE).

(** The [while] loop over the options. *)
Fixpoint touch_options (t : touch) (opts : list (ascii * string)) : M touch :=
  match opts with
  | [] => ret t
  | o :: opts' => t' <- touch_option t o ;; touch_options t' opts'
  end.

(** "Use current time if the user did not specify a time." *)
Definition use_current_time (t : touch) : touch :=
  if tv_sec (fst (time_am t)) =? 0
  then set_time_am t (set_both_nsec (time_am t) UTIME_NOW)
  else t.

(** The choice between access time and modification time. *)
Definition restrict_times (t : touch) : touch :=
  let am := time_am t in
  if negb (has_flag t TOUCH_FLAG_ACCESS_TIME)
     && negb (has_flag t TOUCH_FLAG_MOD_TIME) then
    (* Update both access and modification times. *)
    t
  else if negb (has_flag t TOUCH_FLAG_ACCESS_TIME) then
    set_time_am t (mk_timespec (tv_sec (fst am)) UTIME_OMIT, snd am)
  else if negb (has_flag t TOUCH_FLAG_MOD_TIME) then
    set_time_am t (fst am, mk_timespec (tv_sec (snd am)) UTIME_OMIT)
  else t.

(** The times [touch_main] hands to every [touch_path]. *)
Definition apply_policy (t : touch) : touch :=
  restrict_times (use_current_time t).

(** The [for] loop over the operands. *)
Fixpoint touch_paths (t : touch) (paths : list string) : M touch :=
  match paths with
  | [] => ret t
  | p :: paths' => t' <- touch_path t p ;; touch_paths t' paths'
  end.

(** What [touch_main] does once the options are read. *)
Definition touch_files (t : touch) (operands : list string) : M touch :=
  if (Z.of_nat (List.length operands) <? 1) then
    touch_warn t false "file... argument required"
  else if negb (touch_ensure_args_mutually_exclusive t) then
    touch_warn t false "-r, -t, and -d mutually exclusive"
  else if status_code t =? 0 then
    touch_paths (apply_policy t) operands
  else ret t.

(** [touch_main(argc, argv)] up to its [return]: the context as it ends. *)
Definition touch_run (argv : list string) : M touch :=
  fun w =>
    let (opts, operands) := getopt_args (getopt_permutes w) (tl argv) in
    (t <- touch_options touch_zero opts ;;
     touch_files t operands) w.

Definition touch_main (argv : list string) : M Z :=
  t <- touch_run argv ;;
  ret (status_code t).

(** ** A world to run examples in *)

Definition seams_off : seam_counters := mk_seams (-1) (-1) (-1) (-1) (-1) (-1).

(** No variable TZ, a zone one hour east of Greenwich, a clock, the GNU C
    library, and the files [fs]. *)
Definition example_world (fs : string -> option file) : world :=
  mk_world (fun _ => None) fs seams_off []
           (mk_timespec 1700000000 123456789)
           (fun t => timegm t - 3600)
           (fun _ => true)
           false.

Definition no_files : string -> option file := fun _ => None.

(** The warnings of a trace, the earliest first. *)
Fixpoint warnings (tr : list event) : list string :=
  match tr with
  | [] => []
  | EvWarn _ fmt :: tr' => (warnings tr' ++ [fmt])%list
  | _ :: tr' => warnings tr'
  end.


(* ================================================================== *)
(** * Notions the properties are stated with *)
(* ================================================================== *)

(** Besides auxiliary notions, this part holds the readings of the
    specification that the program does not satisfy; each is refuted
    below, next to the statement that holds in its place. *)

(** The length contract of the ISO parser read as the closed interval
    [[MIN_DATE_TIME, MAX_DATE_TIME]]: within it, and with a 'T' or a space at
    offset 10, the first test of [touch_parse_date_time] lets the input
    through. *)
Definition iso_bounds_closed : Prop :=
  forall (t : touch) (s : string) (w : world),
    (MIN_DATE_TIME <= strlen s <= MAX_DATE_TIME)%nat ->
    char_at s DATE_TIME_T_POS = "T"%char
    \/ char_at s DATE_TIME_T_POS = " "%char ->
    touch_parse_date_time t s w <> touch_warn t false "invalid date_time" w.

(** The bit an option character sets in [flags], if any. *)
Definition option_bit (c : ascii) : option Z :=
  if Ascii.eqb c "a"%char then Some 0
  else if Ascii.eqb c "c"%char then Some 1
  else if Ascii.eqb c "d"%char then Some 5
  else if Ascii.eqb c "m"%char then Some 2
  else if Ascii.eqb c "r"%char then Some 3
  else if Ascii.eqb c "t"%char then Some 4
  else None.

(** Whether [getopt] reported the option [c]. *)
Definition selected (c : ascii) (opts : list (ascii * string)) : bool :=
  existsb (fun o => Ascii.eqb (fst o) c) opts.

(** Whether two of -r, -t and -d were given. *)
Definition two_sources (opts : list (ascii * string)) : bool :=
  (selected "r" opts && selected "t" opts)
  || (selected "r" opts && selected "d" opts)
  || (selected "t" opts && selected "d" opts).

(** Whether the option is one of -r, -t and -d. *)
Definition is_source (o : ascii * string) : bool :=
  Ascii.eqb (fst o) "r"%char || Ascii.eqb (fst o) "t"%char
  || Ascii.eqb (fst o) "d"%char.

(** The calls the three resolvers make. *)
Definition resolver_call (e : event) : bool :=
  match e with
  | EvMalloc _ | EvStrtod _ | EvSetenv _ _ | EvMktime _ | EvStat _ => true
  | _ => false
  end.

(** The exclusivity of -r, -t and -d read as a test made before any
    resolver runs: with two sources given, a run makes no call of a resolver
    and leaves TZ as it was. *)
Definition exclusivity_before_resolvers : Prop :=
  forall (argv : list string) (w : world),
    w_trace w = [] ->
    two_sources (fst (getopt_args (getopt_permutes w) (tl argv))) = true ->
    existsb resolver_call (w_trace (snd (touch_run argv w))) = false
    /\ w_env (snd (touch_run argv w)) "TZ" = w_env w "TZ".

(** Strings made of decimal digits only. *)
Fixpoint all_digits (s : string) : bool :=
  match s with
  | EmptyString => true
  | String c s' => isdigit c && all_digits s'
  end.

(** The format made of the conversions [ds], each written [%d]. *)
Fixpoint fmt_of (ds : list ascii) : string :=
  match ds with
  | [] => EmptyString
  | d :: ds' => String "%"%char (String d (fmt_of ds'))
  end.

(** The conversions that read a field of at most two digits. *)
Definition two_digit_conv (d : ascii) : bool :=
  Ascii.eqb d "C"%char || Ascii.eqb d "y"%char || Ascii.eqb d "m"%char
  || Ascii.eqb d "d"%char || Ascii.eqb d "H"%char || Ascii.eqb d "M"%char
  || Ascii.eqb d "S"%char.

(** The conversions that leave the year and the century alone. *)
Definition year_free_conv (d : ascii) : bool :=
  Ascii.eqb d "m"%char || Ascii.eqb d "d"%char || Ascii.eqb d "H"%char
  || Ascii.eqb d "M"%char || Ascii.eqb d "S"%char.

(** The numeric parser read as checking the base length itself: every
    input whose base length is not 8, 10 or 12 is turned down. *)
Definition base_length_checked : Prop :=
  forall (t : touch) (s : string) (w : world),
    slen_minus_sec s <> 8%nat ->
    slen_minus_sec s <> 10%nat ->
    slen_minus_sec s <> 12%nat ->
    status_code (fst (touch_parse_time t s w)) = EXIT_FAILURE.

(** The nanoseconds [touch_parse_frac] computes from the digits [ds] of a
    fraction: the literal is converted to the nearest [double], multiplied
    by [CONV_FRAC_NSEC] in [double] arithmetic, and cast to [long]. *)
Definition frac_nsec (ds : string) : Z :=
  double_to_long
    (double_mul (decimal_to_double (digits_value 0 ds) (String.length ds))
                (double_of_Z CONV_FRAC_NSEC)).

(** The bare separator read as an error of the fraction parser: when the
    cursor of [touch_parse_date_time] stands on a '.' or ',' that no digit
    follows and neither [malloc] nor [strtod] is made to fail, the parse
    prints the warning of [touch_parse_frac]. *)
Definition bare_point_reported_by_frac : Prop :=
  forall (t : touch) (s : string) (w : world) (tp : nat) (tm : tm),
    date_time_rejected s = false ->
    strptime s (date_time_fmt s) (set_tm_isdst tm_zero (-1)) = Some (tp, tm) ->
    char_at s tp = "."%char \/ char_at s tp = ","%char ->
    isdigit (char_at s (tp + 1)) = false ->
    g_test_seam_err_ctr_malloc (w_seams w) <> 0 ->
    g_test_seam_err_ctr_strtod (w_seams w) <> 0 ->
    In (EvWarn true "failed to parse frac")
       (w_trace (snd (touch_parse_date_time t s w))).

(** Malformed specifications read as leaving the whole pair alone: a parse
    that reports an error returns [time_am] as it found it. *)
Definition malformed_leaves_pair : Prop :=
  forall (t : touch) (s : string) (w : world),
    status_code t = 0 ->
    status_code (fst (touch_parse_date_time t s w)) <> 0 ->
    time_am (fst (touch_parse_date_time t s w)) = time_am t.
(* ================================================================== *)
(** * The model on the examples of POSIX and of the test suite *)
(* ================================================================== *)

Example strptime_posix_example :
  strptime "2007-11-12T10:15:30,002Z" "%Y-%m-%dT%T" tm_zero
  = Some (19%nat, mk_tm 30 15 10 12 10 107 0).
Proof. reflexivity. Qed.

Example timegm_posix_example :
  timegm (mk_tm 30 15 10 12 10 107 0) = 1194862530.
Proof. reflexivity. Qed.

Example strtod_point_002 :
  strtod false ".002"
  = mk_strtod (S754_finite false 4611686018427388 (-61)) 4 0.
Proof. vm_compute. reflexivity. Qed.

Example decimal_digits_LONG_MAX : decimal_digits LONG_MAX = 19%nat.
Proof. reflexivity. Qed.

Example run_posix_utc_frac :
  let (rc, w) := touch_main ["touch"; "-d"; "2007-11-12T10:15:30,002Z"; "f"]
                            (example_world no_files) in
  rc = EXIT_SUCCESS
  /\ w_files w "f" = Some (mk_file (mk_timespec 1194862530 2000000)
                                   (mk_timespec 1194862530 2000000) true).
Proof. vm_compute. split; reflexivity. Qed.

Example run_posix_time :
  let (rc, w) := touch_main ["touch"; "-am"; "-t"; "200711121015.30"; "f"]
                            (example_world no_files) in
  rc = EXIT_SUCCESS
  /\ w_files w "f" = Some (mk_file (mk_timespec 1194858930 0)
                                   (mk_timespec 1194858930 0) true).
Proof. vm_compute. split; reflexivity. Qed.

Example run_too_small :
  let (rc, w) := touch_main ["touch"; "-t"; "071112101"; "f"]
                            (example_world no_files) in
  rc = EXIT_FAILURE /\ warnings (w_trace w) = ["invalid time string"].
Proof. vm_compute. split; reflexivity. Qed.

Example run_invalid_frac :
  let (rc, w) := touch_main ["touch"; "-d"; "2007-11-12T10:15:30,a002"; "f"]
                            (example_world no_files) in
  rc = EXIT_FAILURE /\ warnings (w_trace w) = ["failed to parse date_time"].
Proof. vm_compute. split; reflexivity. Qed.

(** Seven digits and a two-digit seconds field: the layout MMDDhhmm.SS
    matches, the minute being read from one digit. *)
Example run_seven_digits :
  let (rc, w) := touch_main ["touch"; "-t"; "1111111.30"; "f"]
                            (example_world no_files) in
  rc = EXIT_SUCCESS
  /\ w_trace w = [EvFutimens "f" (mk_timespec (-2181823110) 0,
                                  mk_timespec (-2181823110) 0);
                  EvCreat "f"; EvOpen "f";
                  EvMktime (mk_tm 30 1 11 11 10 0 0)].
Proof. vm_compute. split; reflexivity. Qed.

(** Without -d, -r and -t both entries are set to the current time. *)
Example run_no_source :
  let (rc, w) := touch_main ["touch"; "-m"; "f"] (example_world no_files) in
  rc = EXIT_SUCCESS
  /\ w_trace w = [EvFutimens "f" (mk_timespec 0 UTIME_OMIT,
                                  mk_timespec 0 UTIME_NOW);
                  EvCreat "f"; EvOpen "f"].
Proof. vm_compute. split; reflexivity. Qed.

(** Options behind an operand are read, unless POSIXLY_CORRECT is set. *)
Example getopt_behind_operand :
  let args := ["f"; "-c"; "-r"; "ref"; "g"; "--"; "-h"] in
  getopt_args true args
  = ([("c"%char, ""); ("r"%char, "ref")], ["f"; "g"; "-h"])
  /\ getopt_args false args = ([], args).
Proof. split; reflexivity. Qed.

(** Two sources, the second behind the operand: nothing is created. *)
Example run_source_behind_operand :
  let (rc, w) := touch_main ["touch"; "-t"; "200711121015"; "f"; "-r"; "ref"]
                            (example_world no_files) in
  rc = EXIT_FAILURE
  /\ warnings (w_trace w) = ["stat reference file: %s";
                             "-r, -t, and -d mutually exclusive"]
  /\ w_files w "f" = None.
Proof. vm_compute. repeat split; reflexivity. Qed.

(* ================================================================== *)
(** * Running the monad *)
(* ================================================================== *)

Lemma bind_run {A B : Type} (m : M A) (k : A -> M B) (w : world) :
  bind m k w = k (fst (m w)) (snd (m w)).
Proof. unfold bind. destruct (m w); reflexivity. Qed.

(** A seam and the counter it reads. *)
Lemma test_seam_dec_err_ctr_fires (c : Z) :
  fst (test_seam_dec_err_ctr c) = (c =? 0).
Proof.
  unfold test_seam_dec_err_ctr.
  destruct (0 <=? c) eqn:E; simpl.
  - destruct (c =? 0) eqn:E0; lia.
  - destruct (c =? 0) eqn:E0; lia.
Qed.

(* ================================================================== *)
(** * The option flags *)
(* ================================================================== *)

Section Flags.

Lemma land_bit (x k : Z) :
  0 <= k ->
  Z.land x (Z.shiftl 1 k) = if Z.testbit x k then 2 ^ k else 0.
Proof.
  intros Hk. rewrite Z.shiftl_1_l.
  apply Z.bits_inj'. intros n Hn.
  rewrite Z.land_spec, Z.pow2_bits_eqb by assumption.
  destruct (Z.eqb_spec k n) as [->|Hne].
  - destruct (Z.testbit x n) eqn:E.
    + rewrite Z.pow2_bits_eqb, Z.eqb_refl by assumption. reflexivity.
    + rewrite Z.bits_0. reflexivity.
  - rewrite andb_false_r.
    destruct (Z.testbit x k).
    + rewrite Z.pow2_bits_eqb by assumption.
      symmetry. apply Z.eqb_neq. assumption.
    + rewrite Z.bits_0. reflexivity.
Qed.

Lemma has_flag_testbit (t : touch) (k : Z) :
  0 <= k -> has_flag t (Z.shiftl 1 k) = Z.testbit (flags t) k.
Proof.
  intros Hk. unfold has_flag. rewrite land_bit by assumption.
  destruct (Z.testbit (flags t) k); [|reflexivity].
  assert (0 < 2 ^ k) by (apply Z.pow_pos_nonneg; lia).
  destruct (Z.eqb_spec (2 ^ k) 0); [lia | reflexivity].
Qed.

Lemma testbit_lor_bit (x j k : Z) :
  0 <= j -> 0 <= k ->
  Z.testbit (Z.lor x (Z.shiftl 1 j)) k = Z.testbit x k || (j =? k).
Proof.
  intros Hj Hk.
  rewrite Z.lor_spec, Z.shiftl_1_l, Z.pow2_bits_eqb by assumption.
  reflexivity.
Qed.

(** The three source bits, as [touch_ensure_args_mutually_exclusive] masks
    them. *)
Lemma flags_exclusive_bits (x : Z) :
  Z.land x (Z.lor TOUCH_FLAG_REF_FILE (Z.lor TOUCH_FLAG_TIME TOUCH_FLAG_DATE_TIME))
  = (if Z.testbit x 3 then 8 else 0)
    + (if Z.testbit x 4 then 16 else 0)
    + (if Z.testbit x 5 then 32 else 0).
Proof.
  unfold TOUCH_FLAG_REF_FILE, TOUCH_FLAG_TIME, TOUCH_FLAG_DATE_TIME.
  rewrite !Z.land_lor_distr_r, !land_bit by lia.
  destruct (Z.testbit x 3), (Z.testbit x 4), (Z.testbit x 5); reflexivity.
Qed.

(** [touch_ensure_args_mutually_exclusive] answers false exactly when two
    of the bits of -r, -t and -d are set. *)
Lemma touch_ensure_args_mutually_exclusive_spec (t : touch) :
  touch_ensure_args_mutually_exclusive t
  = negb ((has_flag t TOUCH_FLAG_REF_FILE && has_flag t TOUCH_FLAG_TIME)
          || (has_flag t TOUCH_FLAG_REF_FILE && has_flag t TOUCH_FLAG_DATE_TIME)
          || (has_flag t TOUCH_FLAG_TIME && has_flag t TOUCH_FLAG_DATE_TIME)).
Proof.
  unfold touch_ensure_args_mutually_exclusive.
  rewrite flags_exclusive_bits.
  unfold TOUCH_FLAG_REF_FILE, TOUCH_FLAG_TIME, TOUCH_FLAG_DATE_TIME.
  rewrite !has_flag_testbit by lia.
  destruct (Z.testbit (flags t) 3), (Z.testbit (flags t) 4),
    (Z.testbit (flags t) 5); reflexivity.
Qed.

End Flags.

(* ================================================================== *)
(** * The timestamp policy *)
(* ================================================================== *)


(* ================================================================== *)
(** * What the calls leave in the trace *)
(* ================================================================== *)

Lemma test_seam_mktime_trace (tm : tm) (w : world) :
  w_trace (snd (test_seam_mktime tm w)) = EvMktime tm :: w_trace w.
Proof.
  unfold test_seam_mktime, emit, bind, seam, ret, mktime; simpl.
  destruct (test_seam_dec_err_ctr _) as [[] c]; reflexivity.
Qed.

Lemma test_seam_setenv_trace (n v : string) (w : world) :
  w_trace (snd (test_seam_setenv n v w)) = EvSetenv n v :: w_trace w.
Proof.
  unfold test_seam_setenv, emit, bind, seam, ret, setenv; simpl.
  destruct (test_seam_dec_err_ctr _) as [[] c]; reflexivity.
Qed.

(** The mktime step shared by both parsers: what ends the trace. *)
Lemma mktime_step_head (t : touch) (tm : tm) (w : world) :
  let r := (tv_sec <- test_seam_mktime tm ;;
            t' <- (if tv_sec =? -1 then touch_warn t true "mktime" else ret t) ;;
            ret (set_time_am t' (set_both_sec (time_am t') tv_sec))) w in
  exists tr,
    w_trace (snd r) = EvWarn true "mktime" :: tr
    \/ w_trace (snd r) = EvMktime tm :: tr.
Proof.
  cbv zeta. unfold bind.
  pose proof (test_seam_mktime_trace tm w) as Htr.
  destruct (test_seam_mktime tm w) as [tv_sec w1]. simpl in Htr.
  destruct (tv_sec =? -1); simpl.
  - eexists. left. reflexivity.
  - exists (w_trace w). right. assumption.
Qed.

(** Past its first test, [touch_parse_date_time] never ends on the warning
    of that test. *)
Lemma touch_parse_date_time_head (t : touch) (s : string) (w : world) :
  date_time_rejected s = false ->
  exists e tr,
    w_trace (snd (touch_parse_date_time t s w)) = e :: tr
    /\ e <> EvWarn false "invalid date_time".
Proof.
  intros Hacc. unfold touch_parse_date_time. rewrite Hacc.
  destruct (strptime s (date_time_fmt s) _) as [[tp tm]|].
  - unfold bind at 1.
    destruct (touch_parse_frac t s tp w) as [[t1 tp1] w1]. cbv zeta.
    unfold bind at 1.
    match goal with |- context [(if ?c then ?a else ?b) w1] =>
      destruct ((if c then a else b) w1) as [[t2 tp2] w2] end.
    cbv zeta. cbn [fst snd].
    match goal with |- context [if ?c then _ else _] => destruct c end.
    + simpl. do 2 eexists. split; [reflexivity | discriminate].
    + destruct (mktime_step_head t2 tm w2) as [tr [H|H]];
        cbv zeta in H; rewrite H; do 2 eexists; (split; [reflexivity | discriminate]).
  - simpl. do 2 eexists. split; [reflexivity | discriminate].
Qed.

(* ================================================================== *)
(** * The ISO date-time parser: length and separator *)
(* ================================================================== *)

Lemma MAX_DATE_TIME_value : MAX_DATE_TIME = 40%nat.
Proof. reflexivity. Qed.

Lemma date_time_rejected_iff (s : string) :
  date_time_rejected s = true <->
  ((strlen s < MIN_DATE_TIME)%nat
   \/ (MAX_DATE_TIME <= strlen s)%nat
   \/ (char_at s DATE_TIME_T_POS <> "T"%char
       /\ char_at s DATE_TIME_T_POS <> " "%char)).
Proof.
  unfold date_time_rejected.
  rewrite !orb_true_iff, andb_true_iff, !negb_true_iff.
  rewrite Nat.ltb_lt, Nat.leb_le.
  rewrite !Ascii.eqb_neq. tauto.
Qed.

(** C6, refuted as worded: a 40-character input is within the closed
    interval [[19, 20 + MaxFracDigits + 1]] and has its 'T' in place, yet the
    first test of the parser turns it down. *)
Lemma iso_bounds_closed_fails : ~ iso_bounds_closed.
Proof.
  intros H.
  apply (H touch_zero "2007-11-12T10:15:30.123456789012345678ZZ"
           (example_world no_files)).
  - rewrite MAX_DATE_TIME_value. unfold MIN_DATE_TIME. simpl. lia.
  - left. reflexivity.
  - reflexivity.
Qed.

(** C6, amended.  [touch_parse_date_time] fails with the warning
    "invalid date_time", and does nothing else, whenever the input is shorter
    than 19 characters, or has 20 + MaxFracDigits + 1 characters or more
    (MaxFracDigits being the number of decimal digits of [LONG_MAX], 19), or
    has neither 'T' nor a space at offset 10; so does the 18-character input
    "2007-11-12T10:15:3".  For every length from 19 to 20 + MaxFracDigits
    both separators pass this test, and the separator found is the one put
    into the format handed to [strptime]. *)
Theorem iso_date_time_bounds (t : touch) (s : string) (w : world) :
  MAX_DATE_TIME = (20 + decimal_digits LONG_MAX + 1)%nat
  /\ ((strlen s < 19)%nat
      \/ (20 + decimal_digits LONG_MAX + 1 <= strlen s)%nat
      \/ (char_at s 10 <> "T"%char /\ char_at s 10 <> " "%char) ->
      touch_parse_date_time t s w
      = (set_status_code t EXIT_FAILURE, log (EvWarn false "invalid date_time") w))
  /\ touch_parse_date_time t "2007-11-12T10:15:3" w
     = (set_status_code t EXIT_FAILURE, log (EvWarn false "invalid date_time") w)
  /\ ((19 <= strlen s <= 20 + decimal_digits LONG_MAX)%nat ->
      char_at s 10 = "T"%char \/ char_at s 10 = " "%char ->
      touch_parse_date_time t s w <> touch_warn t false "invalid date_time" w
      /\ date_time_fmt s
         = "%Y-%m-%d" ++ String (char_at s 10) "%T").
Proof.
  split; [reflexivity|]. split; [|split].
  - intros Hrej.
    assert (date_time_rejected s = true) as E by (apply date_time_rejected_iff; exact Hrej).
    unfold touch_parse_date_time. rewrite E. reflexivity.
  - reflexivity.
  - intros Hlen Hsep.
    assert (date_time_rejected s = false) as E.
    { destruct (date_time_rejected s) eqn:E; [|reflexivity].
      apply date_time_rejected_iff in E.
      change MIN_DATE_TIME with 19%nat in E.
      change DATE_TIME_T_POS with 10%nat in E.
      change MAX_DATE_TIME with (20 + decimal_digits LONG_MAX + 1)%nat in E.
      destruct E as [E|[E|[E1 E2]]]; [lia | lia | destruct Hsep; contradiction]. }
    split.
    + intros Heq.
      destruct (touch_parse_date_time_head t s w E) as (e & tr & Htr & Hne).
      rewrite Heq in Htr. simpl in Htr. inversion Htr. congruence.
    + reflexivity.
Qed.

Lemma iso_date_time_bounds_witness :
  touch_parse_date_time touch_zero "2007-11-12 10:15" (example_world no_files)
  = (set_status_code touch_zero EXIT_FAILURE,
     log (EvWarn false "invalid date_time") (example_world no_files))
  /\ touch_parse_date_time touch_zero "2019-01-01 09:05:00" (example_world no_files)
     <> touch_warn touch_zero false "invalid date_time" (example_world no_files).
Proof.
  split.
  - refine (proj1 (proj2 (iso_date_time_bounds touch_zero "2007-11-12 10:15"
                            (example_world no_files))) _).
    left. simpl. lia.
  - refine (proj1 (proj2 (proj2 (proj2
              (iso_date_time_bounds touch_zero "2019-01-01 09:05:00"
                 (example_world no_files)))) _ _)).
    + simpl. lia.
    + right. reflexivity.
Defined.

(* ================================================================== *)
(** * What the parsers leave alone *)
(* ================================================================== *)

Lemma seam_run get put (w : world) :
  seam get put w
  = (get (w_seams w) =? 0,
     set_seams w (put (w_seams w)
                      (snd (test_seam_dec_err_ctr (get (w_seams w)))))).
Proof.
  unfold seam. rewrite <- test_seam_dec_err_ctr_fires.
  destruct (test_seam_dec_err_ctr _); reflexivity.
Qed.

(** Symbolic execution: expose the calls, then branch on every test. *)
Ltac split_if :=
  match goal with
  | |- context [if ?c then _ else _] => destruct c eqn:?
  end.

Ltac run_monad :=
  unfold touch_warn, test_seam_malloc, test_seam_strtod, test_seam_setenv,
    test_seam_mktime, stat, setenv, mktime, emit, bind, ret;
  rewrite ?seam_run; simpl;
  repeat (split_if; rewrite ?seam_run; simpl).

Ltac got E := intros E; inversion E; subst; clear E; simpl.

Ltac bool_hyps :=
  repeat match goal with
    | H : _ || _ = false |- _ => apply orb_false_iff in H; destruct H
    | H : negb _ = false |- _ => apply negb_false_iff in H
    | H : negb _ = true |- _ => apply negb_true_iff in H
    | H : (_ =? _) = true |- _ => apply Z.eqb_eq in H
    | H : (_ =? _) = false |- _ => apply Z.eqb_neq in H
    end.

(** The ways the summaries below end. *)
Ltac close_case :=
  bool_hyps;
  try reflexivity;
  try congruence;
  try (right; reflexivity);
  try (left; congruence);
  try match goal with
    | K : _ = _ \/ _ = _ /\ _ |- _ =>
        destruct K as [K|[K ?]];
        solve [ left; congruence | right; congruence | congruence ]
    end;
  try match goal with
    | Hm : forall (tm : tm) (tr : list event), _ <> EvMktime tm :: tr |- _ =>
        exfalso; eapply Hm; reflexivity
    end;
  try match goal with
    | Hw : _ <> Some (EvWarn true "mktime") |- _ =>
        exfalso; apply Hw; reflexivity
    end.

Lemma touch_parse_frac_keeps (t : touch) (s : string) (tp : nat) (w : world)
      (t' : touch) (tp' : nat) (w' : world) :
  touch_parse_frac t s tp w = (t', tp', w') ->
  flags t' = flags t
  /\ w_files w' = w_files w
  /\ w_env w' = w_env w
  /\ (status_code t' = status_code t
      \/ status_code t' = EXIT_FAILURE /\ time_am t' = time_am t)
  /\ tv_sec (fst (time_am t')) = tv_sec (fst (time_am t))
  /\ tv_sec (snd (time_am t')) = tv_sec (snd (time_am t)).
Proof.
  unfold touch_parse_frac. run_monad; got E; auto 10.
Qed.

Lemma EXIT_FAILURE_nonzero : EXIT_FAILURE <> 0.
Proof. discriminate. Qed.

(** What [touch_parse_date_time] leaves alone, whatever the input and the
    world: flags, files; the status is kept or becomes [EXIT_FAILURE]; the
    seconds change only where [mktime] has been called. *)
Lemma touch_parse_date_time_keeps (t : touch) (s : string) (w : world)
      (t' : touch) (w' : world) :
  touch_parse_date_time t s w = (t', w') ->
  flags t' = flags t
  /\ w_files w' = w_files w
  /\ (status_code t' = status_code t \/ status_code t' = EXIT_FAILURE)
  /\ (status_code t <> 0 -> status_code t' = EXIT_FAILURE)
  /\ ((forall tm tr, w_trace w' <> EvMktime tm :: tr)
      -> hd_error (w_trace w') <> Some (EvWarn true "mktime")
      -> tv_sec (fst (time_am t')) = tv_sec (fst (time_am t))
         /\ tv_sec (snd (time_am t')) = tv_sec (snd (time_am t)))
  /\ (forall tm tr, w_trace w' = EvMktime tm :: tr -> status_code t' = 0).
Proof.
  unfold touch_parse_date_time.
  destruct (date_time_rejected s);
    [got E; repeat split; intros; close_case; discriminate|].
  destruct (strptime s (date_time_fmt s) (set_tm_isdst tm_zero (-1)))
    as [[tp tm]|];
    [|got E; repeat split; intros; close_case; discriminate].
  unfold bind at 1.
  pose proof (touch_parse_frac_keeps t s tp w) as K.
  destruct (touch_parse_frac t s tp w) as [[t1 tp1] w1].
  specialize (K _ _ _ eq_refl).
  destruct K as (Kf & Kfs & Kenv & Kst & Ks1 & Ks2).
  cbv zeta. cbn [fst snd].
  run_monad; got E; repeat split; intros; close_case.
Qed.

Lemma touch_parse_time_keeps (t : touch) (s : string) (w : world)
      (t' : touch) (w' : world) :
  touch_parse_time t s w = (t', w') ->
  flags t' = flags t
  /\ w_files w' = w_files w
  /\ w_env w' = w_env w
  /\ (status_code t' = status_code t \/ status_code t' = EXIT_FAILURE)
  /\ (status_code t <> 0 -> status_code t' <> 0)
  /\ tv_nsec (fst (time_am t')) = tv_nsec (fst (time_am t))
  /\ tv_nsec (snd (time_am t')) = tv_nsec (snd (time_am t))
  /\ ((forall tm tr, w_trace w' <> EvMktime tm :: tr)
      -> hd_error (w_trace w') <> Some (EvWarn true "mktime")
      -> time_am t' = time_am t)
  /\ (forall tm tr, w_trace w' = EvMktime tm :: tr ->
                    status_code t' = status_code t).
Proof.
  unfold touch_parse_time.
  destruct (_ || _); [got E; repeat split; intros; close_case; discriminate|].
  destruct (strptime s (time_fmt s) tm_zero) as [[tp tm]|];
    [|got E; repeat split; intros; close_case; discriminate].
  run_monad; got E; repeat split; intros; close_case; try discriminate.
Qed.

Lemma touch_get_time_ref_file_keeps (t : touch) (path : string) (w : world)
      (t' : touch) (w' : world) :
  touch_get_time_ref_file t path w = (t', w') ->
  flags t' = flags t
  /\ w_files w' = w_files w
  /\ w_env w' = w_env w
  /\ (status_code t' = status_code t \/ status_code t' = EXIT_FAILURE)
  /\ (status_code t' <> status_code t -> time_am t' = time_am t).
Proof.
  unfold touch_get_time_ref_file, bind, stat, emit. simpl.
  destruct (w_files w path); got E; repeat split; intros; close_case.
Qed.

(** One option: the files stay, the status is kept or becomes
    [EXIT_FAILURE], and the only bit of [flags] that may change is the bit of
    the option, which is set. *)
Lemma touch_option_keeps (t : touch) (o : ascii * string) (w : world)
      (t' : touch) (w' : world) :
  touch_option t o w = (t', w') ->
  w_files w' = w_files w
  /\ (status_code t' = status_code t \/ status_code t' = EXIT_FAILURE)
  /\ flags t' = match option_bit (fst o) with
                | Some k => Z.lor (flags t) (Z.shiftl 1 k)
                | None => flags t
                end
  /\ (is_source o = false -> time_am t' = time_am t /\ w_env w' = w_env w).
Proof.
  destruct o as [c optarg]. unfold touch_option, option_bit, is_source. cbn [fst].
  destruct (Ascii.eqb c "a") eqn:Ea; [got E; auto|].
  destruct (Ascii.eqb c "c") eqn:Ec; [got E; auto|].
  destruct (Ascii.eqb c "d") eqn:Ed.
  { unfold bind. pose proof (touch_parse_date_time_keeps t optarg w) as K.
    destruct (touch_parse_date_time t optarg w) as [t1 w1].
    destruct (K _ _ eq_refl) as (Kf & Kfs & Kst & _).
    got E. repeat split; intros; try (rewrite Kf; reflexivity); try congruence.
    all: rewrite orb_true_r in *; discriminate. }
  destruct (Ascii.eqb c "m") eqn:Em; [got E; auto|].
  destruct (Ascii.eqb c "r") eqn:Er.
  { unfold bind. pose proof (touch_get_time_ref_file_keeps t optarg w) as K.
    destruct (touch_get_time_ref_file t optarg w) as [t1 w1].
    destruct (K _ _ eq_refl) as (Kf & Kfs & _ & Kst & _).
    got E. repeat split; intros; try (rewrite Kf; reflexivity); try congruence.
    all: discriminate. }
  destruct (Ascii.eqb c "t") eqn:Et.
  { unfold bind. pose proof (touch_parse_time_keeps t optarg w) as K.
    destruct (touch_parse_time t optarg w) as [t1 w1].
    destruct (K _ _ eq_refl) as (Kf & Kfs & _ & Kst & _).
    got E. repeat split; intros; try (rewrite Kf; reflexivity); try congruence.
    all: rewrite orb_true_r in *; discriminate. }
  got E. auto.
Qed.

Lemma touch_options_app (t : touch) (opts1 opts2 : list (ascii * string))
      (w : world) :
  touch_options t (opts1 ++ opts2)%list w
  = touch_options (fst (touch_options t opts1 w)) opts2
                  (snd (touch_options t opts1 w)).
Proof.
  revert t w. induction opts1 as [|o opts1 IH]; intros t w; simpl.
  - reflexivity.
  - rewrite !bind_run. apply IH.
Qed.

(** The option loop: files stay; a status other than 0 stays other than 0;
    each of the six bits of [flags] is set exactly if it was set before or
    its option has been reported. *)
Lemma touch_options_keeps (opts : list (ascii * string)) :
  forall (t : touch) (w : world) (t' : touch) (w' : world),
    touch_options t opts w = (t', w') ->
    w_files w' = w_files w
    /\ (status_code t <> 0 -> status_code t' <> 0)
    /\ (forall c k, option_bit c = Some k ->
                    Z.testbit (flags t') k
                    = Z.testbit (flags t) k || selected c opts)
    /\ (forallb (fun o => negb (is_source o)) opts = true ->
        time_am t' = time_am t /\ w_env w' = w_env w).
Proof.
  induction opts as [|o opts IH]; intros t w t' w'; simpl.
  - got E. repeat split; auto. intros. rewrite orb_false_r. reflexivity.
  - rewrite bind_run.
    pose proof (touch_option_keeps t o w) as K.
    destruct (touch_option t o w) as [t1 w1]. cbn [fst snd].
    destruct (K _ _ eq_refl) as (Kfs & Kst & Kfl & Ksrc).
    intros E. destruct (IH _ _ _ _ E) as (Ifs & Ist & Ifl & Isrc).
    split; [congruence|]. split; [|split].
    + intros Hne. apply Ist. destruct Kst as [Kst|Kst]; rewrite Kst;
        [assumption | apply EXIT_FAILURE_nonzero].
    + intros c k Hck. rewrite (Ifl c k Hck), Kfl.
      assert (0 <= k) as Hk.
      { unfold option_bit in Hck.
        repeat match type of Hck with
               | (if ?b then _ else _) = _ => destruct b
               end; inversion Hck; lia. }
      assert (forall c', option_bit c' = Some k -> Ascii.eqb c' c = true) as Hinj.
      { intros c' Hc'. unfold option_bit in Hck, Hc'.
        repeat match type of Hck with
               | (if ?b then _ else _) = _ => destruct b eqn:?
               end; inversion Hck; subst k;
        repeat match type of Hc' with
               | (if ?b then _ else _) = _ => destruct b eqn:?
               end; inversion Hc';
        repeat match goal with
               | H : Ascii.eqb _ _ = true |- _ => apply Ascii.eqb_eq in H; subst
               end; reflexivity. }
      destruct (option_bit (fst o)) as [j|] eqn:Ej.
      * assert (0 <= j) as Hj.
        { unfold option_bit in Ej.
          repeat match type of Ej with
                 | (if ?b then _ else _) = _ => destruct b
                 end; inversion Ej; lia. }
        rewrite testbit_lor_bit by assumption.
        rewrite <- orb_assoc. f_equal. f_equal.
        destruct (Z.eqb_spec j k) as [->|Hjk].
        -- symmetry. apply Hinj. assumption.
        -- destruct (Ascii.eqb (fst o) c) eqn:Eoc; [|reflexivity].
           apply Ascii.eqb_eq in Eoc. congruence.
      * f_equal.
        destruct (Ascii.eqb (fst o) c) eqn:Eoc; [|reflexivity].
        apply Ascii.eqb_eq in Eoc. congruence.
    + intros Hall. apply andb_true_iff in Hall. destruct Hall as [Ho Hall].
      apply negb_true_iff in Ho.
      destruct (Ksrc Ho) as [K1 K2]. destruct (Isrc Hall) as [I1 I2].
      split; congruence.
Qed.

(* ================================================================== *)
(** * touch_main: sources, current time, and the files *)
(* ================================================================== *)

(** After the option loop of [touch_main], the exclusivity test fails
    exactly when two of -r, -t and -d have been reported. *)
Lemma exclusive_after_options (opts : list (ascii * string)) (w : world) :
  touch_ensure_args_mutually_exclusive (fst (touch_options touch_zero opts w))
  = negb (two_sources opts).
Proof.
  destruct (touch_options touch_zero opts w) as [t' w'] eqn:E.
  destruct (touch_options_keeps opts _ _ _ _ E) as (_ & _ & Hfl & _).
  cbn [fst]. rewrite touch_ensure_args_mutually_exclusive_spec.
  unfold TOUCH_FLAG_REF_FILE, TOUCH_FLAG_TIME, TOUCH_FLAG_DATE_TIME.
  rewrite !has_flag_testbit by lia.
  rewrite (Hfl "r"%char 3 eq_refl), (Hfl "t"%char 4 eq_refl),
    (Hfl "d"%char 5 eq_refl).
  reflexivity.
Qed.

(** Where [touch_main] stops short of the files. *)
Lemma touch_files_gate (t : touch) (operands : list string) (w : world) :
  operands = [] \/ touch_ensure_args_mutually_exclusive t = false
  \/ status_code t <> 0 ->
  w_files (snd (touch_files t operands w)) = w_files w
  /\ status_code (fst (touch_files t operands w)) <> 0
  /\ w_env (snd (touch_files t operands w)) = w_env w.
Proof.
  intros H. unfold touch_files.
  destruct operands as [|p ps]; [simpl; repeat split; discriminate|].
  replace (Z.of_nat (Datatypes.length (p :: ps)) <? 1) with false
    by (symmetry; apply Z.ltb_ge; simpl Datatypes.length; lia).
  destruct (touch_ensure_args_mutually_exclusive t) eqn:Ex; simpl.
  - destruct H as [H|[H|H]]; try discriminate.
    destruct (Z.eqb_spec (status_code t) 0); [contradiction|].
    simpl. auto.
  - repeat split; discriminate.
Qed.

(** C4, refuted as worded: with -d and -r both given, the ISO resolver and
    the reference resolver have run by the time the exclusivity is tested,
    and the run leaves TZ forced to UTC. *)
Lemma exclusivity_before_resolvers_fails : ~ exclusivity_before_resolvers.
Proof.
  intros H.
  destruct (H ["touch"; "-d"; "2007-11-12T10:15:30Z"; "-r"; "ref"; "f"]
              (example_world no_files) eq_refl eq_refl) as [_ Henv].
  vm_compute in Henv. discriminate.
Qed.

(** The options and the operands [touch_main] goes by are the ones [getopt]
    reports for the argument words. *)
Lemma touch_run_reported (argv : list string) (w : world)
      (opts : list (ascii * string)) (operands : list string) :
  getopt_args (getopt_permutes w) (tl argv) = (opts, operands) ->
  touch_run argv w
  = touch_files (fst (touch_options touch_zero opts w)) operands
                (snd (touch_options touch_zero opts w)).
Proof.
  intros E. unfold touch_run. rewrite E.
  exact (bind_run (touch_options touch_zero opts)
                  (fun t => touch_files t operands) w).
Qed.

(** C4, amended.  At most one of -r, -t and -d may be given, and this is
    tested once all the options [getopt] reports have been read (with the
    GNU [getopt] these include the options that stand behind an operand),
    each resolver having run as its option was read, and before any file is
    touched.  The test fails exactly when two sources were reported.  The
    run then ends with status [EXIT_FAILURE], leaves every file as it was,
    and ends in the world the resolvers left with one warning added: "-r,
    -t, and -d mutually exclusive" when there is an operand, and "file...
    argument required" when there is none, the operands being looked at
    first. *)
Theorem two_sources_rejected_after_resolvers
        (opts : list (ascii * string)) (operands : list string) (w : world) :
  let after_options := touch_options touch_zero opts w in
  let run := touch_files (fst after_options) operands (snd after_options) in
  touch_ensure_args_mutually_exclusive (fst after_options)
  = negb (two_sources opts)
  /\ (forall argv,
         getopt_args (getopt_permutes w) (tl argv) = (opts, operands) ->
         touch_run argv w = run)
  /\ (two_sources opts = true ->
      status_code (fst run) = EXIT_FAILURE
      /\ w_files (snd run) = w_files w
      /\ snd run
         = log (EvWarn false
                       match operands with
                       | [] => "file... argument required"
                       | _ :: _ => "-r, -t, and -d mutually exclusive"
                       end)
               (snd after_options)).
Proof.
  cbv zeta. split; [apply exclusive_after_options|].
  split; [intros argv E; apply touch_run_reported; exact E|].
  intros Htwo.
  pose proof (exclusive_after_options opts w) as Hex.
  rewrite Htwo in Hex. simpl in Hex.
  destruct (touch_options touch_zero opts w) as [t1 w1] eqn:E.
  destruct (touch_options_keeps opts _ _ _ _ E) as (Hfs & _).
  cbn [fst snd] in *.
  unfold touch_files. rewrite Hex.
  destruct operands as [|p ps].
  - simpl. repeat split. assumption.
  - replace (Z.of_nat (Datatypes.length (p :: ps)) <? 1) with false
      by (symmetry; apply Z.ltb_ge; simpl Datatypes.length; lia).
    simpl. repeat split. assumption.
Qed.

Lemma two_sources_rejected_after_resolvers_witness :
  let argv := ["touch"; "-t"; "200711121015"; "f"; "-r"; "ref"] in
  let r := touch_run argv (example_world no_files) in
  status_code (fst r) = EXIT_FAILURE
  /\ w_files (snd r) = no_files
  /\ hd_error (w_trace (snd r))
     = Some (EvWarn false "-r, -t, and -d mutually exclusive").
Proof.
  cbv zeta.
  destruct (two_sources_rejected_after_resolvers
              [("t"%char, "200711121015"); ("r"%char, "ref")] ["f"]
              (example_world no_files)) as (_ & Hrun & Hrej).
  rewrite (Hrun ["touch"; "-t"; "200711121015"; "f"; "-r"; "ref"] eq_refl).
  destruct (Hrej eq_refl) as (H1 & H2 & H3).
  split; [exact H1|]. split; [exact H2|]. rewrite H3. reflexivity.
Defined.

(** The default of [touch_main] for the current time looks at the seconds of
    the access entry, not at the sources given. *)
Lemma use_current_time_cases (t : touch) :
  (tv_sec (fst (time_am t)) = 0 ->
   time_am (use_current_time t) = set_both_nsec (time_am t) UTIME_NOW)
  /\ (tv_sec (fst (time_am t)) <> 0 -> use_current_time t = t).
Proof.
  unfold use_current_time.
  destruct (Z.eqb_spec (tv_sec (fst (time_am t))) 0); split; intros;
    try reflexivity; contradiction.
Qed.

(** Without -r, -t and -d the pair is still zeroed when the options are
    read, and both entries get the "set to current time" value. *)
Lemma no_source_uses_current_time (opts : list (ascii * string)) (w : world) :
  forallb (fun o => negb (is_source o)) opts = true ->
  time_am (use_current_time (fst (touch_options touch_zero opts w)))
  = (mk_timespec 0 UTIME_NOW, mk_timespec 0 UTIME_NOW).
Proof.
  intros Hno.
  destruct (touch_options touch_zero opts w) as [t' w'] eqn:E.
  destruct (touch_options_keeps opts _ _ _ _ E) as (_ & _ & _ & Hsrc).
  destruct (Hsrc Hno) as [Ham _]. cbn [fst].
  unfold use_current_time. rewrite Ham. reflexivity.
Qed.

(** C1, at the input on which the program departs from it:
    [touch -d 1970-01-01T00:00:00Z f].  The ISO resolver succeeds ([mktime]
    is called under TZ=UTC, no warning is printed, the status stays
    [EXIT_SUCCESS]) and resolves both entries to 0 seconds; [touch_main]
    then takes the 0 for "no time given", hands [UTIME_NOW] in both
    nanosecond fields to [futimens], and the file gets the time of the clock
    instead of the epoch. *)
Theorem epoch_zero_replaced_by_current_time :
  let r := touch_run ["touch"; "-d"; "1970-01-01T00:00:00Z"; "f"]
                     (example_world no_files) in
  status_code (fst r) = EXIT_SUCCESS
  /\ has_flag (fst r) TOUCH_FLAG_DATE_TIME = true
  /\ w_trace (snd r)
     = [ EvFutimens "f" (mk_timespec 0 UTIME_NOW, mk_timespec 0 UTIME_NOW);
         EvCreat "f"; EvOpen "f";
         EvMktime (mk_tm 0 0 0 1 0 70 (-1)); EvSetenv "TZ" "UTC" ]
  /\ timegm (mk_tm 0 0 0 1 0 70 (-1)) = 0
  /\ w_files (snd r) "f"
     = Some (mk_file (w_now (example_world no_files))
                     (w_now (example_world no_files)) true).
Proof. vm_compute. repeat split; reflexivity. Qed.

(* ================================================================== *)
(** * strptime on digits *)
(* ================================================================== *)

Section StrptimeDigits.

Lemma isdigit_range (c : ascii) :
  isdigit c = true -> 0 <= digit_val c <= 9.
Proof.
  unfold isdigit, digit_val. intros H.
  apply andb_true_iff in H. destruct H as [H1 H2].
  apply Z.leb_le in H1, H2. lia.
Qed.

Lemma isdigit_not_space (c : ascii) : isdigit c = true -> isspace c = false.
Proof.
  unfold isdigit, isspace. intros H.
  apply andb_true_iff in H. destruct H as [H1 H2].
  apply Z.leb_le in H1, H2.
  apply orb_false_iff. split.
  - apply Z.eqb_neq. lia.
  - apply andb_false_iff. right. apply Z.leb_gt. lia.
Qed.

Lemma isdigit_not_NUL (c : ascii) : isdigit c = true -> Ascii.eqb c NUL = false.
Proof.
  intros H. destruct (Ascii.eqb_spec c NUL) as [->|]; [|reflexivity].
  discriminate H.
Qed.

Lemma strptime_loop_conv (d : ascii) (fmt rp : string) (st : strptime_state) :
  strptime_loop (String "%"%char (String d fmt)) rp st
  = match strptime_conv d rp st with
    | Some (rp', st') => strptime_loop fmt rp' st'
    | None => None
    end.
Proof. reflexivity. Qed.

Lemma strptime_loop_point (fmt rp : string) (st : strptime_state) :
  strptime_loop (String "."%char fmt) rp st
  = match match_char "."%char rp with
    | Some rp' => strptime_loop fmt rp' st
    | None => None
    end.
Proof. reflexivity. Qed.

(** A field of at most two digits read from a string that starts with a
    digit: one or two characters are taken. *)
Lemma get_number_takes (from to : Z) (c : ascii) (rp : string) (v : Z)
      (rest : string) :
  isdigit c = true ->
  get_number from to 2 (String c rp) = Some (v, rest) ->
  rest = rp \/ exists c', rp = String c' rest /\ isdigit c' = true.
Proof.
  intros Hc. unfold get_number. simpl skip_space.
  rewrite (isdigit_not_space c Hc), Hc.
  unfold get_number_loop.
  destruct (_ <=? to).
  - destruct rp as [|c' rp'].
    + destruct (_ || _); intros H; inversion H. left. reflexivity.
    + destruct (isdigit c') eqn:Ec'.
      * destruct (_ || _); intros H; inversion H. right. eauto.
      * destruct (_ || _); intros H; inversion H. left. reflexivity.
  - destruct (_ || _); intros H; inversion H. left. reflexivity.
Qed.

(** Two digits in a field whose maximum is at least 90 are both read. *)
Lemma get_number_two_digits (to : Z) (c1 c2 : ascii) (rp : string) :
  isdigit c1 = true -> isdigit c2 = true -> 99 = to ->
  get_number 0 to 2 (String c1 (String c2 rp))
  = Some (digit_val c1 * 10 + digit_val c2, rp).
Proof.
  intros H1 H2 <-. unfold get_number. simpl skip_space.
  rewrite (isdigit_not_space c1 H1), H1.
  pose proof (isdigit_range c1 H1). pose proof (isdigit_range c2 H2).
  unfold get_number_loop. rewrite H2.
  replace ((0 * 10 + digit_val c1) * 10 <=? 99) with true
    by (symmetry; apply Z.leb_le; lia).
  replace (((0 * 10 + digit_val c1) * 10 + digit_val c2 <? 0)
           || (99 <? (0 * 10 + digit_val c1) * 10 + digit_val c2)) with false.
  - reflexivity.
  - symmetry. apply orb_false_iff. split; apply Z.ltb_ge; lia.
Qed.

Lemma strptime_conv_takes (d : ascii) (c : ascii) (rp rest : string)
      (st st' : strptime_state) :
  two_digit_conv d = true ->
  isdigit c = true ->
  strptime_conv d (String c rp) st = Some (rest, st') ->
  rest = rp \/ exists c', rp = String c' rest /\ isdigit c' = true.
Proof.
  intros Hd Hc. unfold strptime_conv.
  repeat match goal with
    | |- context [if Ascii.eqb d ?x then _ else _] =>
        destruct (Ascii.eqb_spec d x) as [->|?]
    end;
  try discriminate Hd;
  try match goal with
  | |- context [get_number ?a ?b 2 _] =>
      destruct (get_number a b 2 (String c rp)) as [[v r]|] eqn:E;
      [ intros H; inversion H; subst; eapply get_number_takes; eassumption
      | discriminate ]
  end.
  discriminate.
Qed.

(** Conversions other than those of the year keep year and century. *)
Lemma strptime_conv_year_free (d : ascii) (rp rest : string)
      (st st' : strptime_state) :
  year_free_conv d = true ->
  strptime_conv d rp st = Some (rest, st') ->
  tm_year (sps_tm st') = tm_year (sps_tm st)
  /\ sps_century st' = sps_century st
  /\ sps_want_century st' = sps_want_century st.
Proof.
  intros Hd. unfold strptime_conv.
  repeat match goal with
    | |- context [if Ascii.eqb d ?x then _ else _] =>
        destruct (Ascii.eqb_spec d x) as [->|?]
    end;
  try discriminate Hd;
  try match goal with
  | |- context [get_number ?a ?b 2 rp] =>
      destruct (get_number a b 2 rp) as [[v r]|];
      [ intros H; inversion H; subst; simpl; auto | discriminate ]
  end.
  discriminate.
Qed.

Lemma all_digits_no_point (s : string) :
  all_digits s = true -> strchr s "."%char = false.
Proof.
  induction s as [|c s IH]; simpl; [reflexivity|].
  intros H. apply andb_true_iff in H. destruct H as [Hc Hs].
  destruct (Ascii.eqb_spec c "."%char) as [->|]; [discriminate Hc|].
  apply IH. assumption.
Qed.

(** A format of two-digit fields on a string of digits: what is left is
    the string without at most two characters per field. *)
Lemma strptime_loop_digits (ds : list ascii) :
  forall (rp rest : string) (st st' : strptime_state),
    forallb two_digit_conv ds = true ->
    all_digits rp = true ->
    (2 * List.length ds < String.length rp)%nat ->
    strptime_loop (fmt_of ds) rp st = Some (rest, st') ->
    all_digits rest = true
    /\ exists pre, rp = pre ++ rest
                   /\ (String.length pre <= 2 * List.length ds)%nat.
Proof.
  induction ds as [|d ds IH]; intros rp rest st st' Hds Hrp Hlen; simpl fmt_of.
  - simpl. intros H. inversion H; subst. split; [assumption|].
    exists EmptyString. split; [reflexivity | simpl; lia].
  - rewrite strptime_loop_conv.
    simpl in Hds. apply andb_true_iff in Hds. destruct Hds as [Hd Hds].
    destruct rp as [|c rp]; [simpl in Hlen; lia|].
    simpl in Hrp. apply andb_true_iff in Hrp. destruct Hrp as [Hc Hrp].
    destruct (strptime_conv d (String c rp) st) as [[r1 s1]|] eqn:E;
      [|discriminate].
    intros Hloop.
    destruct (strptime_conv_takes d c rp r1 st s1 Hd Hc E)
      as [->|(c' & -> & Hc')].
    + destruct (IH rp rest s1 st' Hds Hrp) as (Hr & pre & Hpre & Hpl);
        [simpl in Hlen |- *; lia | assumption |].
      split; [assumption|]. exists (String c pre). split.
      * simpl. rewrite <- Hpre. reflexivity.
      * simpl in *. lia.
    + simpl in Hrp. apply andb_true_iff in Hrp. destruct Hrp as [_ Hrp].
      destruct (IH r1 rest s1 st' Hds Hrp) as (Hr & pre & Hpre & Hpl);
        [simpl in Hlen |- *; lia | assumption |].
      split; [assumption|]. exists (String c (String c' pre)). split.
      * simpl. rewrite <- Hpre. reflexivity.
      * simpl in *. lia.
Qed.

Lemma length_append (a b : string) :
  String.length (a ++ b) = (String.length a + String.length b)%nat.
Proof. induction a; simpl; [reflexivity | rewrite IHa; reflexivity]. Qed.

(** The character a cursor points to once [pre] has been consumed. *)
Lemma char_at_append (pre rest : string) :
  char_at (pre ++ rest) (String.length pre) = char_at rest 0.
Proof.
  unfold char_at. induction pre as [|c pre IH]; simpl; [reflexivity|].
  exact IH.
Qed.

End StrptimeDigits.

(* ================================================================== *)
(** * The numeric time parser: lengths and layouts *)
(* ================================================================== *)

(** C7, refuted as worded: "07111210.5" has ten characters and a point, so
    its base length is 7; the layout MMDDhhmm.SS matches it entirely and the
    parser accepts it. *)
Lemma base_length_checked_fails : ~ base_length_checked.
Proof.
  intros H.
  specialize (H touch_zero "07111210.5" (example_world no_files)).
  vm_compute in H.
  assert (0 = 1) as E by (apply H; discriminate).
  discriminate E.
Qed.

Lemma time_fmt_layout (s : string) :
  time_fmt s
  = (if (slen_minus_sec s =? 12)%nat then "%C%y%m%d%H%M"
     else if (10 <=? slen_minus_sec s)%nat then "%y%m%d%H%M"
     else "%m%d%H%M")
    ++ (if strchr s "."%char then ".%S" else "").
Proof.
  unfold time_fmt.
  destruct (Nat.eqb_spec (slen_minus_sec s) 12) as [->|_].
  - reflexivity.
  - destruct (10 <=? slen_minus_sec s)%nat; reflexivity.
Qed.

(** A string of digits too long for the layout its length selects. *)
Lemma touch_parse_time_digits (t : touch) (s : string) (w : world) :
  all_digits s = true ->
  (8 <= strlen s <= 15)%nat ->
  strlen s <> 8%nat -> strlen s <> 10%nat -> strlen s <> 12%nat ->
  touch_parse_time t s w
  = (set_status_code t EXIT_FAILURE, log (EvWarn true "invalid time string") w).
Proof.
  intros Hdig Hlen H8 H10 H12.
  unfold touch_parse_time, MIN_TIME_LEN, MAX_TIME_LEN.
  replace ((strlen s <? 8)%nat || (15 <? strlen s)%nat) with false
    by (symmetry; apply orb_false_iff; split; apply Nat.ltb_ge; lia).
  rewrite time_fmt_layout. unfold slen_minus_sec.
  rewrite (all_digits_no_point s Hdig).
  destruct (Nat.eqb_spec (strlen s) 12) as [E|_]; [contradiction|].
  unfold strptime, strlen in *.
  assert (forall ds st,
             forallb two_digit_conv ds = true ->
             (2 * List.length ds < String.length s)%nat ->
             match
               match strptime_loop (fmt_of ds) s st with
               | Some (rest, s0) =>
                   Some ((String.length s - String.length rest)%nat,
                         strptime_finish s0)
               | None => None
               end
             with
             | Some (time_parse, tm) =>
                 if negb (Ascii.eqb (char_at s time_parse) NUL)
                 then touch_warn t true "invalid time string"
                 else
                   tv_sec <- test_seam_mktime tm ;;
                   t0 <- (if tv_sec =? -1 then touch_warn t true "mktime"
                          else ret t) ;;
                   ret (set_time_am t0 (set_both_sec (time_am t0) tv_sec))
             | None => touch_warn t true "invalid time string"
             end w
             = (set_status_code t EXIT_FAILURE,
                log (EvWarn true "invalid time string") w)) as Hgen.
  { intros ds st Hds Hl.
    destruct (strptime_loop (fmt_of ds) s st) as [[rest st']|] eqn:E;
      [|reflexivity].
    destruct (strptime_loop_digits ds s rest st st' Hds Hdig Hl E)
      as (Hrest & pre & Hpre & Hpl).
    assert (String.length s = (String.length pre + String.length rest)%nat)
      as Hsum by (rewrite Hpre; apply length_append).
    replace (String.length s - String.length rest)%nat
      with (String.length pre) by lia.
    clear E. subst s. rewrite char_at_append.
    destruct rest as [|c rest]; [simpl in Hsum; lia|].
    simpl in Hrest. apply andb_true_iff in Hrest. destruct Hrest as [Hc _].
    unfold char_at. simpl. rewrite (isdigit_not_NUL c Hc). reflexivity. }
  destruct (10 <=? String.length s)%nat eqn:E10.
  - apply Nat.leb_le in E10.
    apply (Hgen ["y"; "m"; "d"; "H"; "M"]%char); [reflexivity | simpl; lia].
  - apply Nat.leb_gt in E10.
    apply (Hgen ["m"; "d"; "H"; "M"]%char); [reflexivity | simpl; lia].
Qed.

(** C7, amended.  [touch_parse_time] turns down every input shorter than 8
    or longer than 15 characters, with the warning "invalid time string" and
    nothing else done.  The base length (the length, less 3 if the input has
    a '.') selects the layout: 12 selects CCYYMMDDhhmm, 10 selects
    YYMMDDhhmm, 8 selects MMDDhhmm; the parser has no test of its own for
    the other base lengths, which fall to YYMMDDhhmm from 10 on and to
    MMDDhhmm below 10, and are turned down when [strptime] does not match
    the whole input against that layout.  This is so for every input made
    of digits only whose length is not 8, 10 or 12, as for "071112101". *)
Theorem numeric_time_lengths_and_layouts (t : touch) (s : string) (w : world) :
  ((strlen s < 8 \/ 15 < strlen s)%nat ->
   touch_parse_time t s w
   = (set_status_code t EXIT_FAILURE, log (EvWarn false "invalid time string") w))
  /\ time_fmt s
     = (if (slen_minus_sec s =? 12)%nat then "%C%y%m%d%H%M"
        else if (10 <=? slen_minus_sec s)%nat then "%y%m%d%H%M"
        else "%m%d%H%M")
       ++ (if strchr s "."%char then ".%S" else "")
  /\ (all_digits s = true ->
      (8 <= strlen s <= 15)%nat ->
      strlen s <> 8%nat -> strlen s <> 10%nat -> strlen s <> 12%nat ->
      touch_parse_time t s w
      = (set_status_code t EXIT_FAILURE,
         log (EvWarn true "invalid time string") w))
  /\ touch_parse_time t "071112101" w
     = (set_status_code t EXIT_FAILURE, log (EvWarn true "invalid time string") w).
Proof.
  split; [|split; [|split]].
  - intros Hlen. unfold touch_parse_time, MIN_TIME_LEN, MAX_TIME_LEN.
    replace ((strlen s <? 8)%nat || (15 <? strlen s)%nat) with true.
    + reflexivity.
    + symmetry. apply orb_true_iff.
      destruct Hlen; [left; apply Nat.ltb_lt | right; apply Nat.ltb_lt];
        assumption.
  - apply time_fmt_layout.
  - apply touch_parse_time_digits.
  - reflexivity.
Qed.

Lemma numeric_time_lengths_and_layouts_witness :
  touch_parse_time touch_zero "0711121" (example_world no_files)
  = (set_status_code touch_zero EXIT_FAILURE,
     log (EvWarn false "invalid time string") (example_world no_files))
  /\ touch_parse_time touch_zero "20071112101530" (example_world no_files)
     = (set_status_code touch_zero EXIT_FAILURE,
        log (EvWarn true "invalid time string") (example_world no_files)).
Proof.
  split.
  - refine (proj1 (numeric_time_lengths_and_layouts touch_zero "0711121"
                     (example_world no_files)) _).
    left. simpl. lia.
  - refine (proj1 (proj2 (proj2
              (numeric_time_lengths_and_layouts touch_zero "20071112101530"
                 (example_world no_files)))) _ _ _ _ _).
    + reflexivity.
    + simpl. lia.
    + discriminate.
    + discriminate.
    + discriminate.
Defined.

(* ================================================================== *)
(** * The numeric time parser: the year *)
(* ================================================================== *)

Lemma strptime_conv_y (rp : string) (st : strptime_state) :
  strptime_conv "y" rp st
  = match get_number 0 99 2 rp with
    | Some (v, rp') =>
        Some (rp', mk_sps (set_tm_year (sps_tm st) (if 69 <=? v then v else v + 100))
                          (sps_century st) true)
    | None => None
    end.
Proof. reflexivity. Qed.

Lemma strptime_conv_C (rp : string) (st : strptime_state) :
  strptime_conv "C" rp st
  = match get_number 0 99 2 rp with
    | Some (v, rp') => Some (rp', mk_sps (sps_tm st) (Some v) (sps_want_century st))
    | None => None
    end.
Proof. reflexivity. Qed.

(** A format of month, day, hour, minute and second fields, with or without
    the ".%S" that [touch_parse_time] appends, keeps year and century. *)
Lemma strptime_loop_year_free (ds : list ascii) (sfx : string) :
  forallb year_free_conv ds = true ->
  sfx = "" \/ sfx = ".%S" ->
  forall (rp rest : string) (st st' : strptime_state),
    strptime_loop (fmt_of ds ++ sfx) rp st = Some (rest, st') ->
    tm_year (sps_tm st') = tm_year (sps_tm st)
    /\ sps_century st' = sps_century st
    /\ sps_want_century st' = sps_want_century st.
Proof.
  intros Hds Hsfx. induction ds as [|d ds IH]; intros rp rest st st'.
  - simpl fmt_of. simpl append. destruct Hsfx as [->| ->].
    + simpl. intros H. inversion H. auto.
    + rewrite strptime_loop_point.
      destruct (match_char "." rp) as [rp1|]; [|discriminate].
      rewrite strptime_loop_conv.
      destruct (strptime_conv "S" rp1 st) as [[rp2 st2]|] eqn:E; [|discriminate].
      simpl. intros H. inversion H; subst.
      apply (strptime_conv_year_free "S"%char rp1 rest st st' eq_refl E).
  - simpl in Hds. apply andb_true_iff in Hds. destruct Hds as [Hd Hds].
    simpl fmt_of. simpl append. rewrite strptime_loop_conv.
    destruct (strptime_conv d rp st) as [[rp1 st1]|] eqn:E; [|discriminate].
    intros H.
    destruct (strptime_conv_year_free d rp rp1 st st1 Hd E) as (E1 & E2 & E3).
    destruct (IH Hds rp1 rest st1 st' H) as (I1 & I2 & I3).
    repeat split; congruence.
Qed.

(** When [touch_parse_time] accepts its input, the broken-down time it has
    handed to [mktime] is the one [strptime] filled from the selected
    layout. *)
Lemma touch_parse_time_accepted (t : touch) (s : string) (w : world) :
  status_code t = 0 ->
  status_code (fst (touch_parse_time t s w)) = 0 ->
  exists n tm,
    strptime s (time_fmt s) tm_zero = Some (n, tm)
    /\ w_trace (snd (touch_parse_time t s w)) = EvMktime tm :: w_trace w.
Proof.
  intros H0. unfold touch_parse_time.
  destruct (_ || _); [simpl; discriminate|].
  destruct (strptime s (time_fmt s) tm_zero) as [[n tm]|]; [|simpl; discriminate].
  destruct (negb _); [simpl; discriminate|].
  unfold bind.
  pose proof (test_seam_mktime_trace tm w) as Htr.
  destruct (test_seam_mktime tm w) as [tv w1]. simpl in Htr.
  destruct (tv =? -1); simpl; [discriminate|].
  intros _. exists n, tm. split; [reflexivity | assumption].
Qed.

(** The year [strptime] resolves from a two-digit year. *)
Lemma strptime_year_yy (y1 y2 : ascii) (rest : string) (n : nat) (tm : tm) :
  let s := String y1 (String y2 rest) in
  let yy := digit_val y1 * 10 + digit_val y2 in
  isdigit y1 = true -> isdigit y2 = true ->
  slen_minus_sec s = 10%nat ->
  strptime s (time_fmt s) tm_zero = Some (n, tm) ->
  tm_year tm + 1900 = (if 69 <=? yy then 1900 + yy else 2000 + yy).
Proof.
  intros s yy H1 H2 Hbase. rewrite time_fmt_layout, Hbase.
  change ((10 =? 12)%nat) with false. change ((10 <=? 10)%nat) with true.
  cbv iota. unfold strptime.
  change ("%y%m%d%H%M" ++ (if strchr s "." then ".%S" else ""))
    with (String "%"%char (String "y"%char
            (fmt_of ["m"; "d"; "H"; "M"]%char
             ++ (if strchr s "." then ".%S" else "")))).
  rewrite strptime_loop_conv, strptime_conv_y.
  unfold s at 1. rewrite (get_number_two_digits 99 y1 y2 rest H1 H2 eq_refl).
  fold yy.
  match goal with
  | |- context [strptime_loop ?f ?r ?st] =>
      destruct (strptime_loop f r st) as [[r' st']|] eqn:E; [|discriminate]
  end.
  apply strptime_loop_year_free in E;
    [|reflexivity | destruct (strchr s "."); auto].
  destruct E as (Ey & Ec & _). simpl in Ey, Ec.
  intros H. inversion H; subst.
  unfold strptime_finish. rewrite Ec, Ey.
  destruct (69 <=? yy); lia.
Qed.

(** The year [strptime] resolves from a century and a two-digit year. *)
Lemma strptime_year_ccyy (c1 c2 y1 y2 : ascii) (rest : string) (n : nat)
      (tm : tm) :
  let s := String c1 (String c2 (String y1 (String y2 rest))) in
  let cc := digit_val c1 * 10 + digit_val c2 in
  let yy := digit_val y1 * 10 + digit_val y2 in
  isdigit c1 = true -> isdigit c2 = true ->
  isdigit y1 = true -> isdigit y2 = true ->
  slen_minus_sec s = 12%nat ->
  strptime s (time_fmt s) tm_zero = Some (n, tm) ->
  tm_year tm + 1900 = cc * 100 + yy.
Proof.
  intros s cc yy Hc1 Hc2 H1 H2 Hbase. rewrite time_fmt_layout, Hbase.
  change ((12 =? 12)%nat) with true. cbv iota. unfold strptime.
  change ("%C%y%m%d%H%M" ++ (if strchr s "." then ".%S" else ""))
    with (String "%"%char (String "C"%char
           (String "%"%char (String "y"%char
            (fmt_of ["m"; "d"; "H"; "M"]%char
             ++ (if strchr s "." then ".%S" else "")))))).
  rewrite strptime_loop_conv, strptime_conv_C.
  unfold s at 1.
  rewrite (get_number_two_digits 99 c1 c2 _ Hc1 Hc2 eq_refl). fold cc.
  rewrite strptime_loop_conv, strptime_conv_y.
  rewrite (get_number_two_digits 99 y1 y2 rest H1 H2 eq_refl). fold yy.
  match goal with
  | |- context [strptime_loop ?f ?r ?st] =>
      destruct (strptime_loop f r st) as [[r' st']|] eqn:E; [|discriminate]
  end.
  apply strptime_loop_year_free in E;
    [|reflexivity | destruct (strchr s "."); auto].
  destruct E as (Ey & Ec & Ew). simpl in Ey, Ec, Ew.
  intros H. inversion H; subst.
  unfold strptime_finish. rewrite Ec, Ew, Ey. simpl tm_year.
  pose proof (isdigit_range y1 H1). pose proof (isdigit_range y2 H2).
  assert (0 <= yy <= 99) as Hyy by (unfold yy; lia).
  destruct (69 <=? yy).
  - rewrite Z.rem_small by lia. lia.
  - rewrite Z.rem_mod_nonneg by lia.
    replace (yy + 100) with (yy + 1 * 100) by lia.
    rewrite Z.mod_add by lia. rewrite Z.mod_small by lia. lia.
Qed.

(** C8.  For every numeric time specification that [touch_parse_time]
    accepts: if it starts with the two digits of a year YY and has base
    length 10, the broken-down time handed to [mktime] has the year 1900+YY
    for YY in [69,99] and 2000+YY for YY in [00,68]; if it starts with the
    four digits CC and YY and has base length 12, that year is CC*100+YY.
    ([tm_year] counts from 1900.) *)
Theorem two_digit_year_rollover (t : touch) (w : world) :
  status_code t = 0 ->
  (forall (y1 y2 : ascii) (rest : string),
      let s := String y1 (String y2 rest) in
      let yy := digit_val y1 * 10 + digit_val y2 in
      isdigit y1 = true -> isdigit y2 = true ->
      slen_minus_sec s = 10%nat ->
      status_code (fst (touch_parse_time t s w)) = 0 ->
      0 <= yy <= 99
      /\ exists tm,
          w_trace (snd (touch_parse_time t s w)) = EvMktime tm :: w_trace w
          /\ tm_year tm + 1900 = (if 69 <=? yy then 1900 + yy else 2000 + yy))
  /\ (forall (c1 c2 y1 y2 : ascii) (rest : string),
      let s := String c1 (String c2 (String y1 (String y2 rest))) in
      let cc := digit_val c1 * 10 + digit_val c2 in
      let yy := digit_val y1 * 10 + digit_val y2 in
      isdigit c1 = true -> isdigit c2 = true ->
      isdigit y1 = true -> isdigit y2 = true ->
      slen_minus_sec s = 12%nat ->
      status_code (fst (touch_parse_time t s w)) = 0 ->
      exists tm,
        w_trace (snd (touch_parse_time t s w)) = EvMktime tm :: w_trace w
        /\ tm_year tm + 1900 = cc * 100 + yy).
Proof.
  intros H0. split.
  - intros y1 y2 rest s yy H1 H2 Hbase Hacc.
    pose proof (isdigit_range y1 H1). pose proof (isdigit_range y2 H2).
    split; [unfold yy; lia|].
    destruct (touch_parse_time_accepted t s w H0 Hacc) as (n & tm & Hp & Htr).
    exists tm. split; [assumption|].
    exact (strptime_year_yy y1 y2 rest n tm H1 H2 Hbase Hp).
  - intros c1 c2 y1 y2 rest s cc yy Hc1 Hc2 H1 H2 Hbase Hacc.
    destruct (touch_parse_time_accepted t s w H0 Hacc) as (n & tm & Hp & Htr).
    exists tm. split; [assumption|].
    exact (strptime_year_ccyy c1 c2 y1 y2 rest n tm Hc1 Hc2 H1 H2 Hbase Hp).
Qed.

Lemma two_digit_year_rollover_witness :
  (exists tm,
      w_trace (snd (touch_parse_time touch_zero "6901010000" (example_world no_files)))
      = [EvMktime tm] /\ tm_year tm + 1900 = 1969)
  /\ (exists tm,
      w_trace (snd (touch_parse_time touch_zero "6801010000.30" (example_world no_files)))
      = [EvMktime tm] /\ tm_year tm + 1900 = 2068)
  /\ (exists tm,
      w_trace (snd (touch_parse_time touch_zero "200711121015" (example_world no_files)))
      = [EvMktime tm] /\ tm_year tm + 1900 = 2007).
Proof.
  pose proof (two_digit_year_rollover touch_zero (example_world no_files) eq_refl)
    as [Hyy Hcc].
  split; [|split].
  - destruct (Hyy "6"%char "9"%char "01010000" eq_refl eq_refl eq_refl eq_refl)
      as (_ & tm & Htr & Hy).
    exists tm. split; assumption.
  - destruct (Hyy "6"%char "8"%char "01010000.30" eq_refl eq_refl eq_refl eq_refl)
      as (_ & tm & Htr & Hy).
    exists tm. split; assumption.
  - destruct (Hcc "2"%char "0"%char "0"%char "7"%char "11121015"
                  eq_refl eq_refl eq_refl eq_refl eq_refl eq_refl)
      as (tm & Htr & Hy).
    exists tm. split; assumption.
Defined.

(* ================================================================== *)
(** * Cursors, digits and strtod *)
(* ================================================================== *)

Section Cursor.

Lemma str_from_add (s : string) (a b : nat) :
  str_from s (a + b) = str_from (str_from s a) b.
Proof.
  revert s. induction a as [|a IH]; intros s; simpl.
  - reflexivity.
  - destruct s as [|c s]; [destruct b; reflexivity | apply IH].
Qed.

Lemma str_from_append (pre rest : string) :
  str_from (pre ++ rest) (String.length pre) = rest.
Proof. induction pre as [|c pre IH]; simpl; [reflexivity | exact IH]. Qed.

Lemma char_at_str_from (s : string) (i : nat) :
  char_at s i = char_at (str_from s i) 0.
Proof.
  unfold char_at. revert s. induction i as [|i IH]; intros s; simpl.
  - reflexivity.
  - destruct s as [|c s]; [reflexivity | apply IH].
Qed.

Lemma frac_copy_digits (ds rest : string) :
  forall room : nat,
    all_digits ds = true ->
    (String.length ds <= room)%nat ->
    String.length ds = room \/ isdigit (char_at rest 0) = false ->
    frac_copy (ds ++ rest) room = ds.
Proof.
  induction ds as [|c ds IH]; intros room Hd Hlen Hstop; simpl in *.
  - destruct rest as [|c r]; [reflexivity|].
    destruct room as [|room]; [reflexivity|].
    destruct Hstop as [Hstop|Hstop]; [discriminate|].
    unfold char_at in Hstop. simpl in Hstop. simpl. rewrite Hstop. reflexivity.
  - apply andb_true_iff in Hd. destruct Hd as [Hc Hd].
    destruct room as [|room]; [lia|]. rewrite Hc. f_equal.
    apply IH; [assumption | lia | destruct Hstop; [left; lia | right; assumption]].
Qed.

Lemma frac_copy_length (tp : string) (room : nat) :
  (String.length (frac_copy tp room) <= room)%nat.
Proof.
  revert room. induction tp as [|c tp IH]; intros [|room]; simpl; try lia.
  destruct (isdigit c); simpl; [specialize (IH room); lia | lia].
Qed.

Lemma frac_copy_stops (tp : string) (room : nat) :
  isdigit (char_at tp 0) = false -> frac_copy tp room = EmptyString.
Proof.
  destruct tp as [|c tp]; [reflexivity|].
  unfold char_at; simpl. intros H. destruct room; [reflexivity|].
  rewrite H. reflexivity.
Qed.

Lemma span_digits_all (ds : string) :
  all_digits ds = true -> span_digits ds = (ds, EmptyString).
Proof.
  induction ds as [|c ds IH]; simpl; [reflexivity|].
  intros H. apply andb_true_iff in H. destruct H as [Hc Hd].
  rewrite Hc, (IH Hd). reflexivity.
Qed.

Lemma digits_value_bounds (ds : string) :
  forall acc : Z,
    all_digits ds = true -> 0 <= acc ->
    acc * 10 ^ Z.of_nat (String.length ds) <= digits_value acc ds
    < (acc + 1) * 10 ^ Z.of_nat (String.length ds).
Proof.
  induction ds as [|c ds IH]; intros acc Hd Hacc.
  - simpl. lia.
  - simpl in Hd. apply andb_true_iff in Hd. destruct Hd as [Hc Hd].
    pose proof (isdigit_range c Hc) as Hr.
    change (digits_value acc (String c ds))
      with (digits_value (acc * 10 + digit_val c) ds).
    specialize (IH (acc * 10 + digit_val c) Hd ltac:(lia)).
    change (String.length (String c ds)) with (S (String.length ds)).
    rewrite Nat2Z.inj_succ, Z.pow_succ_r by lia.
    assert (0 < 10 ^ Z.of_nat (String.length ds))
      by (apply Z.pow_pos_nonneg; lia).
    nia.
Qed.

(** No fraction of at most 18 digits is out of the range of [double]. *)
Lemma decimal_range_error_frac (ds : string) :
  all_digits ds = true ->
  (String.length ds <= 18)%nat ->
  decimal_range_error (digits_value 0 ds) (String.length ds) = false.
Proof.
  intros Hd Hlen.
  pose proof (digits_value_bounds ds 0 Hd ltac:(lia)) as Hb.
  set (n := digits_value 0 ds) in *. set (k := Z.of_nat (String.length ds)) in *.
  assert (0 < 10 ^ k) as Hpos by (apply Z.pow_pos_nonneg; lia).
  assert (10 ^ k <= 10 ^ 18) as Hle by (apply Z.pow_le_mono_r; lia).
  assert (10 ^ 18 < 2 ^ 1022) as Hbig by (vm_compute; reflexivity).
  assert (1 <= 2 ^ 1024 - 2 ^ 970) as Hhuge by (vm_compute; discriminate).
  unfold decimal_range_error. fold n. fold k.
  apply orb_false_iff. split.
  - destruct (Z.ltb_spec 0 n) as [Hn|Hn]; [|reflexivity]. simpl.
    apply Z.ltb_ge.
    remember (2 ^ 1022) as A. remember (10 ^ 18) as B. nia.
  - apply Z.leb_gt.
    remember (2 ^ 1024 - 2 ^ 970) as A. nia.
Qed.

(** [strtod] on the buffer [touch_parse_frac] fills, a point and digits. *)
Lemma strtod_frac_str (b : bool) (ds : string) :
  all_digits ds = true -> ds <> EmptyString ->
  (String.length ds <= 18)%nat ->
  strtod b (String "."%char ds)
  = mk_strtod (decimal_to_double (digits_value 0 ds) (String.length ds))
              (S (String.length ds)) 0.
Proof.
  intros Hd Hne Hlen. unfold strtod.
  change (span_digits (String "."%char ds))
    with (EmptyString, String "."%char ds).
  cbv iota. rewrite (span_digits_all ds Hd).
  destruct ds as [|c ds]; [contradiction|].
  cbv iota. change (EmptyString ++ String c ds) with (String c ds).
  rewrite (decimal_range_error_frac (String c ds) Hd Hlen).
  f_equal.
Qed.

Lemma strtod_end (b : bool) (nptr : string) :
  (sd_end (strtod b nptr) <= String.length nptr)%nat.
Proof.
  unfold strtod.
  destruct (span_digits nptr) as [ip s1].
  destruct (match s1 with
            | String "."%char s1' => span_digits s1'
            | _ => (EmptyString, s1)
            end) as [fp s2].
  destruct ip, fp; cbn [sd_end]; lia.
Qed.

(** [strtod] on a lone point converts nothing. *)
Lemma strtod_point (b : bool) :
  strtod b "." = mk_strtod (S754_zero false) 0 (if b then EINVAL else 0).
Proof. reflexivity. Qed.

End Cursor.

(* ================================================================== *)
(** * The fraction of a second *)
(* ================================================================== *)

(** Wherever [touch_parse_frac] is called, the cursor ends at most
    [MAX_FRAC_CHAR_LEN] characters further: the separator and at most
    [MAX_FRAC_CHAR_LEN - 1] digits. *)
Lemma touch_parse_frac_cursor (t : touch) (str : string) (tp : nat) (w : world) :
  (snd (fst (touch_parse_frac t str tp w)) <= tp + MAX_FRAC_CHAR_LEN)%nat.
Proof.
  change MAX_FRAC_CHAR_LEN with 19%nat.
  unfold touch_parse_frac.
  destruct (_ || _); [|simpl; lia].
  unfold test_seam_malloc, test_seam_strtod, emit, bind, ret.
  rewrite !seam_run. cbn [fst snd].
  destruct (negb (negb _)); [simpl; lia|].
  rewrite !seam_run. cbn [fst snd].
  change (MAX_FRAC_CHAR_LEN - 1)%nat with 18%nat.
  pose proof (frac_copy_length (str_from str (tp + 1)) 18) as Hlen.
  destruct (_ =? 0) eqn:Eseam.
  - simpl. lia.
  - match goal with
    | |- context [strtod ?b ?f] =>
        pose proof (strtod_end b f) as Hend; set (r := strtod b f) in *
    end.
    cbn [String.length] in Hend.
    destruct (negb (sd_errno r =? 0)); simpl; lia.
Qed.

(** The fraction as [touch_parse_frac] reads it, when neither seam fires. *)
Lemma touch_parse_frac_digits (t : touch) (str : string) (tp : nat) (w : world)
      (sep : ascii) (ds rest : string) :
  str_from str tp = String sep (ds ++ rest) ->
  sep = "."%char \/ sep = ","%char ->
  all_digits ds = true ->
  (1 <= String.length ds <= MAX_FRAC_CHAR_LEN - 1)%nat ->
  (String.length ds = MAX_FRAC_CHAR_LEN - 1)%nat
  \/ isdigit (char_at rest 0) = false ->
  g_test_seam_err_ctr_malloc (w_seams w) <> 0 ->
  g_test_seam_err_ctr_strtod (w_seams w) <> 0 ->
  fst (touch_parse_frac t str tp w)
  = (set_time_am t (set_both_nsec (time_am t) (frac_nsec ds)),
     (tp + 1 + String.length ds)%nat)
  /\ w_trace (snd (touch_parse_frac t str tp w))
     = EvStrtod (String "."%char ds)
       :: EvMalloc (MAX_FRAC_CHAR_LEN + 1) :: w_trace w.
Proof.
  intros Hcur Hsep Hd Hlen Hstop Hmalloc Hstrtod.
  change (MAX_FRAC_CHAR_LEN - 1)%nat with 18%nat in *.
  unfold touch_parse_frac.
  rewrite (char_at_str_from str tp), Hcur.
  replace (Ascii.eqb (char_at (String sep (ds ++ rest)) 0) "."
           || Ascii.eqb (char_at (String sep (ds ++ rest)) 0) ",") with true
    by (destruct Hsep as [-> | ->]; reflexivity).
  unfold test_seam_malloc, test_seam_strtod, emit, bind, ret.
  rewrite !seam_run.
  cbn [fst snd log set_seams w_seams g_test_seam_err_ctr_malloc].
  apply Z.eqb_neq in Hmalloc, Hstrtod.
  rewrite Hmalloc. cbn [negb].
  rewrite !seam_run.
  cbn [fst snd log set_seams w_seams with_malloc g_test_seam_err_ctr_strtod].
  rewrite Hstrtod.
  change (MAX_FRAC_CHAR_LEN - 1)%nat with 18%nat.
  replace (str_from str (tp + 1)) with (ds ++ rest)
    by (rewrite str_from_add, Hcur; reflexivity).
  rewrite (frac_copy_digits ds rest 18 Hd ltac:(lia) Hstop).
  cbv iota beta.
  assert (ds <> EmptyString) as Hne
      by (intros ->; simpl in Hlen; lia).
  rewrite (strtod_frac_str _ ds Hd Hne ltac:(lia)).
  simpl. split.
  - unfold frac_nsec. f_equal. lia.
  - reflexivity.
Qed.

(** C10.  When the cursor stands on a '.' or ',' followed by one to
    [MAX_FRAC_CHAR_LEN - 1] digits [ds] (after which comes no digit, unless
    [ds] already has [MAX_FRAC_CHAR_LEN - 1] of them), and neither [malloc]
    nor [strtod] is made to fail, [touch_parse_frac] converts exactly the
    literal ".ds", stores in both nanosecond fields the integer part of
    (the double value of the literal, times 1_000_000_000 in double
    arithmetic), leaves the rest of the context alone, and leaves the
    cursor right after the digits [ds] it has converted.  In no case does
    the cursor move past the separator and [MAX_FRAC_CHAR_LEN - 1] digits.
    "2007-11-12T10:15:30,002" gives 2_000_000 nanoseconds and
    "2007-11-12T10:15:30,12345" gives 123_450_000. *)
Theorem frac_parser_nanoseconds (t : touch) (str : string) (tp : nat)
        (w : world) :
  (forall (sep : ascii) (ds rest : string),
      str_from str tp = String sep (ds ++ rest) ->
      sep = "."%char \/ sep = ","%char ->
      all_digits ds = true ->
      (1 <= String.length ds <= MAX_FRAC_CHAR_LEN - 1)%nat ->
      (String.length ds = MAX_FRAC_CHAR_LEN - 1)%nat
      \/ isdigit (char_at rest 0) = false ->
      g_test_seam_err_ctr_malloc (w_seams w) <> 0 ->
      g_test_seam_err_ctr_strtod (w_seams w) <> 0 ->
      let r := touch_parse_frac t str tp w in
      time_am (fst (fst r))
      = set_both_nsec (time_am t)
          (double_to_long
             (double_mul
                (decimal_to_double (digits_value 0 ds) (String.length ds))
                (double_of_Z 1000000000)))
      /\ flags (fst (fst r)) = flags t
      /\ status_code (fst (fst r)) = status_code t
      /\ snd (fst r) = (tp + 1 + String.length ds)%nat
      /\ str_from str (snd (fst r)) = rest
      /\ In (EvStrtod (String "."%char ds)) (w_trace (snd r)))
  /\ (snd (fst (touch_parse_frac t str tp w)) <= tp + 1 + (MAX_FRAC_CHAR_LEN - 1))%nat
  /\ MAX_FRAC_CHAR_LEN = decimal_digits LONG_MAX
  /\ time_am (fst (touch_parse_date_time touch_zero "2007-11-12T10:15:30,002"
                                         (example_world no_files)))
     = (mk_timespec 1194858930 2000000, mk_timespec 1194858930 2000000)
  /\ time_am (fst (touch_parse_date_time touch_zero "2007-11-12T10:15:30,12345"
                                         (example_world no_files)))
     = (mk_timespec 1194858930 123450000, mk_timespec 1194858930 123450000).
Proof.
  split; [|split; [|split; [|split]]].
  - intros sep ds rest Hcur Hsep Hd Hlen Hstop Hmalloc Hstrtod r.
    destruct (touch_parse_frac_digits t str tp w sep ds rest
                Hcur Hsep Hd Hlen Hstop Hmalloc Hstrtod) as [Hfst Htr].
    subst r. rewrite Hfst, Htr. cbn [fst snd].
    repeat split.
    + replace (tp + 1 + String.length ds)%nat
        with (tp + (1 + String.length ds))%nat by lia.
      rewrite str_from_add, Hcur. cbn [Nat.add str_from].
      apply str_from_append.
    + left. reflexivity.
  - pose proof (touch_parse_frac_cursor t str tp w) as H.
    change MAX_FRAC_CHAR_LEN with 19%nat in *. simpl. lia.
  - reflexivity.
  - vm_compute. reflexivity.
  - vm_compute. reflexivity.
Qed.

Lemma frac_parser_nanoseconds_witness :
  let r := touch_parse_frac touch_zero "2007-11-12T10:15:30,12345Z" 19
                            (example_world no_files) in
  time_am (fst (fst r)) = (mk_timespec 0 123450000, mk_timespec 0 123450000)
  /\ snd (fst r) = 25%nat
  /\ str_from "2007-11-12T10:15:30,12345Z" (snd (fst r)) = "Z".
Proof.
  cbv zeta.
  destruct (proj1 (frac_parser_nanoseconds touch_zero
                     "2007-11-12T10:15:30,12345Z" 19 (example_world no_files))
                  ","%char "12345" "Z"
                  eq_refl (or_intror eq_refl) eq_refl
                  ltac:(simpl; lia) (or_intror eq_refl)
                  ltac:(discriminate) ltac:(discriminate))
    as (Ham & _ & _ & Hcur & Hrest & _).
  split; [|split].
  - rewrite Ham. vm_compute. reflexivity.
  - rewrite Hcur. reflexivity.
  - exact Hrest.
Defined.

(* ================================================================== *)
(** * After the fraction *)
(* ================================================================== *)

(** What follows [touch_parse_frac] in [touch_parse_date_time] when an
    error stands already: the parse fails on its last test, without
    [mktime]; the only call it may still make is the [setenv] of a 'Z'. *)
Lemma date_time_tail_failed (t : touch) (s : string) (w : world)
      (tp0 : nat) (tm : tm) (t1 : touch) (tp : nat) (w1 : world)
      (t' : touch) (w' : world) :
  date_time_rejected s = false ->
  strptime s (date_time_fmt s) (set_tm_isdst tm_zero (-1)) = Some (tp0, tm) ->
  touch_parse_frac t s tp0 w = (t1, tp, w1) ->
  status_code t1 <> 0 ->
  touch_parse_date_time t s w = (t', w') ->
  status_code t' = EXIT_FAILURE
  /\ time_am t' = time_am t1
  /\ exists evs,
      w_trace w' = (EvWarn false "failed to parse date_time" :: evs ++ w_trace w1)%list
      /\ (evs = [] \/ evs = [EvSetenv "TZ" "UTC"]
          \/ evs = [EvWarn true "failed to set TZ"; EvSetenv "TZ" "UTC"]).
Proof.
  intros Hacc Hstrp Hfrac Hst.
  unfold touch_parse_date_time. rewrite Hacc, Hstrp.
  unfold bind at 1. rewrite Hfrac. cbv zeta. cbn [fst snd].
  apply Z.eqb_neq in Hst.
  unfold test_seam_setenv, setenv, touch_warn, emit, bind, ret.
  destruct (Ascii.eqb (char_at s tp) "Z").
  - cbv beta iota. rewrite !seam_run.
    cbn [fst snd log set_seams w_seams g_test_seam_err_ctr_setenv].
    destruct (g_test_seam_err_ctr_setenv (w_seams w1) =? 0); cbv beta iota;
      cbn [failed fst snd status_code set_status_code].
    + change (negb (EXIT_FAILURE =? 0)) with true. cbn [orb]. got E.
      split; [reflexivity|]. split; [reflexivity|]. exists [EvWarn true "failed to set TZ"; EvSetenv "TZ" "UTC"].
      split; [reflexivity | auto].
    + rewrite Hst. cbn [negb orb]. got E.
      split; [reflexivity|]. split; [reflexivity|]. exists [EvSetenv "TZ" "UTC"].
      split; [reflexivity | auto].
  - cbv beta iota. cbn [fst snd]. rewrite Hst. cbn [negb orb]. got E.
    split; [reflexivity|]. split; [reflexivity|]. exists []. split; [reflexivity | auto].
Qed.

(** The same when the cursor is left on a character that is neither 'Z' nor
    the end of the input. *)
Lemma date_time_tail_trailing (t : touch) (s : string) (w : world)
      (tp0 : nat) (tm : tm) (t1 : touch) (tp : nat) (w1 : world) :
  date_time_rejected s = false ->
  strptime s (date_time_fmt s) (set_tm_isdst tm_zero (-1)) = Some (tp0, tm) ->
  touch_parse_frac t s tp0 w = (t1, tp, w1) ->
  Ascii.eqb (char_at s tp) "Z" = false ->
  Ascii.eqb (char_at s tp) NUL = false ->
  touch_parse_date_time t s w
  = (set_status_code t1 EXIT_FAILURE,
     log (EvWarn false "failed to parse date_time") w1).
Proof.
  intros Hacc Hstrp Hfrac HZ HN.
  unfold touch_parse_date_time. rewrite Hacc, Hstrp.
  unfold bind at 1. rewrite Hfrac. cbv zeta. cbn [fst snd].
  rewrite HZ. unfold bind, ret. cbv beta iota. cbn [fst snd]. rewrite HN.
  cbn [negb]. rewrite orb_true_r. reflexivity.
Qed.

(* ================================================================== *)
(** * The UTC marker *)
(* ================================================================== *)

Lemma trailing_after_Z_example :
  let r := touch_parse_date_time touch_zero "2007-11-12T10:15:30Z1"
                                 (example_world no_files) in
  status_code (fst r) = EXIT_FAILURE
  /\ w_trace (snd r)
     = [EvWarn false "failed to parse date_time"; EvSetenv "TZ" "UTC"]
  /\ w_env (snd r) "TZ" = Some "UTC".
Proof. vm_compute. repeat split; reflexivity. Qed.

Lemma utc_marker_steps (t : touch) (s : string) (w : world)
        (tp0 : nat) (tm : tm) (t1 : touch) (tp : nat) (w1 : world)
        (t' : touch) (w' : world) :
  date_time_rejected s = false ->
  strptime s (date_time_fmt s) (set_tm_isdst tm_zero (-1)) = Some (tp0, tm) ->
  touch_parse_frac t s tp0 w = (t1, tp, w1) ->
  char_at s tp = "Z"%char ->
  g_test_seam_err_ctr_setenv (w_seams w1) <> 0 ->
  touch_parse_date_time t s w = (t', w') ->
  w_env w' "TZ" = Some "UTC"
  /\ (char_at s (tp + 1) <> NUL ->
      t' = set_status_code t1 EXIT_FAILURE
      /\ w_trace w'
         = EvWarn false "failed to parse date_time"
           :: EvSetenv "TZ" "UTC" :: w_trace w1)
  /\ (char_at s (tp + 1) = NUL ->
      status_code t1 = 0 ->
      g_test_seam_err_ctr_mktime (w_seams w1) <> 0 ->
      time_am t' = set_both_sec (time_am t1) (timegm tm)
      /\ exists evs,
          w_trace w' = (evs ++ [EvMktime tm; EvSetenv "TZ" "UTC"] ++ w_trace w1)%list
          /\ (evs = [] \/ evs = [EvWarn true "mktime"])).
Proof.
  intros Hacc Hstrp Hfrac HZ Hsetenv.
  unfold touch_parse_date_time. rewrite Hacc, Hstrp.
  unfold bind at 1. rewrite Hfrac. cbv zeta. cbn [fst snd].
  rewrite HZ. change (Ascii.eqb "Z" "Z") with true. cbv iota.
  apply Z.eqb_neq in Hsetenv.
  unfold test_seam_setenv, test_seam_mktime, setenv, mktime, touch_warn,
    emit, bind, ret.
  rewrite !seam_run.
  cbn [fst snd log set_seams w_seams g_test_seam_err_ctr_setenv].
  rewrite Hsetenv. cbn [failed fst snd].
  destruct (Ascii.eqb_spec (char_at s (tp + 1)) NUL) as [Hend|Hend].
  - (* nothing after the Z *)
    destruct (Z.eqb_spec (status_code t1) 0) as [Hst|Hst].
    + cbn [negb orb]. cbv beta iota. rewrite !seam_run.
      cbn [fst snd log set_seams set_env w_seams w_env with_setenv
             g_test_seam_err_ctr_mktime].
      destruct (Z.eqb_spec (g_test_seam_err_ctr_mktime (w_seams w1)) 0)
        as [Hmk|Hmk].
      * simpl. got E.
        refine (conj eq_refl (conj _ _)); intros; contradiction.
      * cbv beta iota. cbn [fst snd log set_seams set_env w_env].
        change (String.eqb "TZ" "TZ") with true. cbv beta iota.
        change (String.eqb "UTC" "UTC") with true. cbv beta iota.
        destruct (timegm tm =? -1); got E.
        -- refine (conj eq_refl (conj _ _));
             [intros; contradiction|].
           intros _ _ _. split; [reflexivity|].
           exists [EvWarn true "mktime"]. split; [reflexivity | auto].
        -- refine (conj eq_refl (conj _ _));
             [intros; contradiction|].
           intros _ _ _. split; [reflexivity|].
           exists []. split; [reflexivity | auto].
    + cbn [negb orb]. got E.
      refine (conj eq_refl (conj _ _)); intros; contradiction.
  - (* a character after the Z *)
    cbn [negb]. rewrite orb_true_r. cbv beta iota. got E.
    refine (conj eq_refl (conj _ _));
      [intros; split; reflexivity | intros; contradiction].
Qed.

(** C9.  Let [touch_parse_date_time] have passed its first test and
    [strptime], and let [touch_parse_frac] be done.  If the cursor stands on
    a 'Z', [setenv("TZ", "UTC", 1)] is the next call and the cursor advances
    past the 'Z': if a character follows, the parse fails with the warning
    "failed to parse date_time" and [mktime] is not called; if nothing
    follows and no error stands, [mktime] is called after the [setenv], and
    the seconds it gives are those of the broken-down time read as UTC.  TZ
    is not set again afterwards: the parse ends with TZ=UTC.  If the cursor
    stands on a character that is neither 'Z' nor the end of the input, the
    parse fails with the same warning and nothing else is done.
    "2007-11-12T10:15:30Z1" fails in the first way. *)
Theorem utc_marker (t : touch) (s : string) (w : world)
        (tp0 : nat) (tm : tm) (t1 : touch) (tp : nat) (w1 : world)
        (t' : touch) (w' : world) :
  date_time_rejected s = false ->
  strptime s (date_time_fmt s) (set_tm_isdst tm_zero (-1)) = Some (tp0, tm) ->
  touch_parse_frac t s tp0 w = (t1, tp, w1) ->
  touch_parse_date_time t s w = (t', w') ->
  (char_at s tp = "Z"%char ->
   g_test_seam_err_ctr_setenv (w_seams w1) <> 0 ->
   w_env w' "TZ" = Some "UTC"
   /\ (char_at s (tp + 1) <> NUL ->
       t' = set_status_code t1 EXIT_FAILURE
       /\ w_trace w'
          = EvWarn false "failed to parse date_time"
            :: EvSetenv "TZ" "UTC" :: w_trace w1)
   /\ (char_at s (tp + 1) = NUL ->
       status_code t1 = 0 ->
       g_test_seam_err_ctr_mktime (w_seams w1) <> 0 ->
       time_am t' = set_both_sec (time_am t1) (timegm tm)
       /\ exists evs,
           w_trace w'
           = (evs ++ [EvMktime tm; EvSetenv "TZ" "UTC"] ++ w_trace w1)%list
           /\ (evs = [] \/ evs = [EvWarn true "mktime"])))
  /\ (char_at s tp <> "Z"%char -> char_at s tp <> NUL ->
      t' = set_status_code t1 EXIT_FAILURE
      /\ w' = log (EvWarn false "failed to parse date_time") w1)
  /\ (let r := touch_parse_date_time touch_zero "2007-11-12T10:15:30Z1"
                                     (example_world no_files) in
      status_code (fst r) = EXIT_FAILURE
      /\ w_trace (snd r)
         = [EvWarn false "failed to parse date_time"; EvSetenv "TZ" "UTC"]
      /\ w_env (snd r) "TZ" = Some "UTC").
Proof.
  intros Hacc Hstrp Hfrac Hrun. split; [|split].
  - intros HZ Hsetenv.
    exact (utc_marker_steps t s w tp0 tm t1 tp w1 t' w'
             Hacc Hstrp Hfrac HZ Hsetenv Hrun).
  - intros HZ HN.
    rewrite (date_time_tail_trailing t s w tp0 tm t1 tp w1 Hacc Hstrp Hfrac)
      in Hrun.
    + inversion Hrun. split; reflexivity.
    + apply Ascii.eqb_neq. assumption.
    + apply Ascii.eqb_neq. assumption.
  - exact trailing_after_Z_example.
Qed.

Lemma utc_marker_witness :
  let r := touch_parse_date_time touch_zero "2007-11-12T10:15:30Z"
                                 (example_world no_files) in
  w_env (snd r) "TZ" = Some "UTC"
  /\ time_am (fst r)
     = (mk_timespec 1194862530 0, mk_timespec 1194862530 0).
Proof.
  cbv zeta.
  destruct (utc_marker touch_zero "2007-11-12T10:15:30Z"
              (example_world no_files) 19 (mk_tm 30 15 10 12 10 107 (-1))
              touch_zero 19 (example_world no_files)
              (fst (touch_parse_date_time touch_zero "2007-11-12T10:15:30Z"
                      (example_world no_files)))
              (snd (touch_parse_date_time touch_zero "2007-11-12T10:15:30Z"
                      (example_world no_files)))
              eq_refl eq_refl eq_refl (surjective_pairing _))
    as (HZ & _).
  destruct (HZ eq_refl ltac:(discriminate)) as (H1 & _ & H3).
  destruct (H3 eq_refl eq_refl ltac:(discriminate)) as [Ham _].
  split; [exact H1 | rewrite Ham; reflexivity].
Defined.

(* ================================================================== *)
(** * The bare separator *)
(* ================================================================== *)

(** C3, refuted as worded: with a C library whose [strtod] sets no [errno]
    when it converts nothing (the GNU C library), "2007-11-12T10:15:30." is
    not reported by [touch_parse_frac]. *)
Lemma bare_point_reported_by_frac_fails : ~ bare_point_reported_by_frac.
Proof.
  intros H.
  specialize (H touch_zero "2007-11-12T10:15:30." (example_world no_files)
                19%nat (mk_tm 30 15 10 12 10 107 (-1))
                eq_refl eq_refl (or_introl eq_refl) eq_refl
                ltac:(discriminate) ltac:(discriminate)).
  vm_compute in H.
  repeat (destruct H as [H|H]; [discriminate H|]). exact H.
Qed.

(** [touch_parse_frac] on a separator that no digit follows. *)
Lemma touch_parse_frac_bare (t : touch) (s : string) (tp : nat) (w : world) :
  char_at s tp = "."%char \/ char_at s tp = ","%char ->
  isdigit (char_at s (tp + 1)) = false ->
  let r := touch_parse_frac t s tp w in
  (g_test_seam_err_ctr_malloc (w_seams w) = 0 ->
   fst r = (set_status_code t EXIT_FAILURE, tp)
   /\ w_trace (snd r)
      = EvWarn true "malloc: frac_str" :: EvMalloc (MAX_FRAC_CHAR_LEN + 1)
        :: w_trace w)
  /\ (g_test_seam_err_ctr_malloc (w_seams w) <> 0 ->
      (g_test_seam_err_ctr_strtod (w_seams w) = 0 \/ w_strtod_einval w = true ->
       fst r = (set_status_code t EXIT_FAILURE, (tp + 1)%nat)
       /\ w_trace (snd r)
          = EvWarn true "failed to parse frac" :: EvStrtod "."
            :: EvMalloc (MAX_FRAC_CHAR_LEN + 1) :: w_trace w)
      /\ (g_test_seam_err_ctr_strtod (w_seams w) <> 0 ->
          w_strtod_einval w = false ->
          fst r = (set_time_am t (set_both_nsec (time_am t) 0), tp)
          /\ w_trace (snd r)
             = EvStrtod "." :: EvMalloc (MAX_FRAC_CHAR_LEN + 1) :: w_trace w)).
Proof.
  intros Hsep Hnodigit.
  assert (Ascii.eqb (char_at s tp) "." || Ascii.eqb (char_at s tp) "," = true)
    as Hsepb by (destruct Hsep as [-> | ->]; reflexivity).
  cbv zeta. unfold touch_parse_frac. rewrite Hsepb.
  change (MAX_FRAC_CHAR_LEN - 1)%nat with 18%nat.
  rewrite (frac_copy_stops (str_from s (tp + 1)) 18)
    by (rewrite <- char_at_str_from; assumption).
  unfold test_seam_malloc, test_seam_strtod, touch_warn, emit, bind, ret.
  rewrite !seam_run.
  cbn [fst snd log set_seams w_seams g_test_seam_err_ctr_malloc].
  destruct (Z.eqb_spec (g_test_seam_err_ctr_malloc (w_seams w)) 0) as [Hm|Hm].
  - cbn [negb fst snd]. split; [intros _; split; reflexivity|].
    intros; contradiction.
  - cbn [negb]. cbv beta iota. rewrite !seam_run.
    cbn [fst snd log set_seams w_seams with_malloc g_test_seam_err_ctr_strtod].
    split; [intros; contradiction|]. intros _.
    destruct (Z.eqb_spec (g_test_seam_err_ctr_strtod (w_seams w)) 0) as [Hs|Hs].
    + cbv beta iota. cbn [sd_errno fst snd].
      change (negb (ERANGE =? 0)) with true. cbv beta iota. cbn [fst snd].
      split; [intros _; split; reflexivity | intros; contradiction].
    + cbv beta iota. cbn [w_strtod_einval log set_seams fst snd].
      rewrite strtod_point.
      destruct (w_strtod_einval w).
      * cbn [sd_errno]. change (negb (EINVAL =? 0)) with true.
        cbv beta iota. cbn [fst snd].
        split; [intros _; split; reflexivity | intros; discriminate].
      * cbn [sd_errno sd_end sd_value]. change (negb (0 =? 0)) with false.
        cbv beta iota. cbn [fst snd].
        replace (tp + 1 + 0 - 1)%nat with tp by lia.
        split; [intros [H|H]; [contradiction | discriminate]|].
        intros _ _. split; reflexivity.
Qed.

(** C3, amended.  Let the cursor of [touch_parse_date_time] stand on a '.'
    or ',' that no digit follows.  Whatever the world, the parse fails with
    status [EXIT_FAILURE], calls no [mktime] and leaves the seconds alone.
    Unless [malloc] is made to fail, [strtod] is called on the literal ".".
    When neither call is made to fail: with a [strtod] that sets [errno] for
    an empty conversion, [touch_parse_frac] warns "failed to parse frac";
    with a [strtod] that sets none, [touch_parse_frac] reports nothing,
    stores 0 nanoseconds and moves the cursor back onto the separator, and
    the parse ends on the warning "failed to parse date_time" of the test
    for trailing characters. *)
Theorem bare_point_rejected (t : touch) (s : string) (w : world)
        (tp : nat) (tm : tm) (t' : touch) (w' : world) :
  date_time_rejected s = false ->
  strptime s (date_time_fmt s) (set_tm_isdst tm_zero (-1)) = Some (tp, tm) ->
  char_at s tp = "."%char \/ char_at s tp = ","%char ->
  isdigit (char_at s (tp + 1)) = false ->
  touch_parse_date_time t s w = (t', w') ->
  status_code t' = EXIT_FAILURE
  /\ tv_sec (fst (time_am t')) = tv_sec (fst (time_am t))
  /\ tv_sec (snd (time_am t')) = tv_sec (snd (time_am t))
  /\ (g_test_seam_err_ctr_malloc (w_seams w) <> 0 ->
      In (EvStrtod ".") (w_trace w'))
  /\ (g_test_seam_err_ctr_malloc (w_seams w) <> 0 ->
      g_test_seam_err_ctr_strtod (w_seams w) <> 0 ->
      (w_strtod_einval w = true ->
       In (EvWarn true "failed to parse frac") (w_trace w')
       /\ time_am t' = time_am t)
      /\ (w_strtod_einval w = false ->
          fst (touch_parse_frac t s tp w)
          = (set_time_am t (set_both_nsec (time_am t) 0), tp)
          /\ w_trace w'
             = EvWarn false "failed to parse date_time"
               :: EvStrtod "." :: EvMalloc (MAX_FRAC_CHAR_LEN + 1)
               :: w_trace w)).
Proof.
  intros Hacc Hstrp Hsep Hnodigit Hrun.
  pose proof (touch_parse_frac_bare t s tp w Hsep Hnodigit) as Hbare.
  cbv zeta in Hbare.
  destruct (touch_parse_frac t s tp w) as [[t1 tp1] w1] eqn:Hfrac.
  cbn [fst snd] in Hbare. destruct Hbare as [Hbm Hbs].
  assert (Ascii.eqb (char_at s tp) "Z" = false) as HnotZ
      by (destruct Hsep as [-> | ->]; reflexivity).
  assert (Ascii.eqb (char_at s tp) NUL = false) as HnotNUL
      by (destruct Hsep as [-> | ->]; reflexivity).
  (* the three ways touch_parse_frac reports an error, and the silent one *)
  assert (forall evs0,
             t1 = set_status_code t EXIT_FAILURE ->
             w_trace w1 = (evs0 ++ w_trace w)%list ->
             status_code t' = EXIT_FAILURE
             /\ time_am t' = time_am t
             /\ forall e, In e evs0 -> In e (w_trace w')) as Hfail.
  { intros evs0 Ht1 Htr1.
    destruct (date_time_tail_failed t s w tp tm t1 tp1 w1 t' w'
                Hacc Hstrp Hfrac) as (Hs & Ham & evs & Htr & _);
      [rewrite Ht1; discriminate | assumption |].
    split; [assumption|]. split; [rewrite Ham, Ht1; reflexivity|].
    intros e He. rewrite Htr, Htr1. right.
    apply in_or_app. right. apply in_or_app. left. assumption. }
  destruct (Z.eqb_spec (g_test_seam_err_ctr_malloc (w_seams w)) 0) as [Hm|Hm].
  - destruct (Hbm Hm) as [Hfst Htr]. inversion Hfst; subst t1 tp1.
    destruct (Hfail [EvWarn true "malloc: frac_str";
                     EvMalloc (MAX_FRAC_CHAR_LEN + 1)] eq_refl Htr)
      as (Hs & Ham & _).
    rewrite Ham. repeat split; try assumption; intros; contradiction.
  - destruct (Hbs Hm) as [Herr Hsilent].
    destruct (Z.eqb_spec (g_test_seam_err_ctr_strtod (w_seams w)) 0) as [Hs|Hs];
      [|destruct (w_strtod_einval w) eqn:Eeinval].
    + destruct (Herr (or_introl Hs)) as [Hfst Htr]. inversion Hfst; subst t1 tp1.
      destruct (Hfail [EvWarn true "failed to parse frac"; EvStrtod ".";
                       EvMalloc (MAX_FRAC_CHAR_LEN + 1)] eq_refl Htr)
        as (Hst & Ham & Hin).
      rewrite Ham. repeat split; try assumption; try contradiction.
      intros _. apply Hin. right. left. reflexivity.
    + destruct (Herr (or_intror eq_refl)) as [Hfst Htr].
      inversion Hfst; subst t1 tp1.
      destruct (Hfail [EvWarn true "failed to parse frac"; EvStrtod ".";
                       EvMalloc (MAX_FRAC_CHAR_LEN + 1)] eq_refl Htr)
        as (Hst & Ham & Hin).
      rewrite Ham. repeat split; try assumption; try discriminate.
      * intros _. apply Hin. right. left. reflexivity.
      * apply Hin. left. reflexivity.
    + destruct (Hsilent Hs eq_refl) as [Hfst Htr]. inversion Hfst; subst t1 tp1.
      rewrite (date_time_tail_trailing t s w tp tm _ tp w1
                 Hacc Hstrp Hfrac HnotZ HnotNUL) in Hrun.
      inversion Hrun; subst t' w'. simpl. rewrite Htr.
      repeat split; try discriminate; try reflexivity.
      intros _. right. left. reflexivity.
Qed.

Lemma bare_point_rejected_witness :
  let r := touch_parse_date_time touch_zero "2007-11-12T10:15:30,"
                                 (example_world no_files) in
  status_code (fst r) = EXIT_FAILURE
  /\ In (EvStrtod ".") (w_trace (snd r)).
Proof.
  cbv zeta.
  destruct (bare_point_rejected touch_zero "2007-11-12T10:15:30,"
              (example_world no_files) 19 (mk_tm 30 15 10 12 10 107 (-1))
              (fst (touch_parse_date_time touch_zero "2007-11-12T10:15:30,"
                      (example_world no_files)))
              (snd (touch_parse_date_time touch_zero "2007-11-12T10:15:30,"
                      (example_world no_files)))
              eq_refl eq_refl (or_intror eq_refl) eq_refl
              (surjective_pairing _))
    as (H1 & _ & _ & H4 & _).
  split; [exact H1 | apply H4; discriminate].
Defined.

(* ================================================================== *)
(** * Malformed specifications *)
(* ================================================================== *)

(** C2, refuted as worded: "2007-11-12T10:15:30,5x" is malformed (the parse
    reports an error), yet the nanoseconds of the pair have been set to
    500_000_000 by the time the trailing 'x' is found. *)
Lemma malformed_leaves_pair_fails : ~ malformed_leaves_pair.
Proof.
  intros H.
  specialize (H touch_zero "2007-11-12T10:15:30,5x" (example_world no_files)
                eq_refl ltac:(vm_compute; discriminate)).
  vm_compute in H. discriminate H.
Qed.

(** The files of a run are those it started with once the status is not 0
    after some of the options. *)
Lemma failed_option_touches_nothing (opts1 opts2 : list (ascii * string))
      (operands : list string) (w : world) :
  status_code (fst (touch_options touch_zero opts1 w)) <> 0 ->
  let r := (t1 <- touch_options touch_zero (opts1 ++ opts2)%list ;;
            touch_files t1 operands) w in
  status_code (fst r) <> 0 /\ w_files (snd r) = w_files w.
Proof.
  intros Hst. cbv zeta. rewrite bind_run, touch_options_app.
  destruct (touch_options touch_zero opts1 w) as [ta wa] eqn:Ea.
  cbn [fst snd] in *.
  destruct (touch_options ta opts2 wa) as [tb wb] eqn:Eb.
  cbn [fst snd].
  destruct (touch_options_keeps opts1 _ _ _ _ Ea) as (Hfa & _).
  destruct (touch_options_keeps opts2 _ _ _ _ Eb) as (Hfb & Hsb & _).
  destruct (touch_files_gate tb operands wb) as (Hf & Hs & _).
  - right. right. apply Hsb. assumption.
  - split; [assumption | congruence].
Qed.

(** C2, amended.  A parse that reports an error sets the status to
    [EXIT_FAILURE], and once the status is not 0 [touch_main] touches no
    file.  As to the pair itself: [touch_parse_frac] leaves it unchanged
    when it fails; [touch_parse_date_time] leaves it unchanged when the
    first test, [strptime] or [touch_parse_frac] fails, and leaves the
    seconds unchanged on every failure that is not the one of [mktime] (the
    nanoseconds then hold the fraction, if one was converted);
    [touch_parse_time] never changes the nanoseconds and leaves the pair
    unchanged on every failure that is not the one of [mktime]. *)
Theorem malformed_spec_effects (t : touch) (s : string) (w : world) :
  status_code t = 0 ->
  (forall t' w',
      touch_parse_date_time t s w = (t', w') ->
      status_code t' <> 0 ->
      status_code t' = EXIT_FAILURE
      /\ (hd_error (w_trace w') <> Some (EvWarn true "mktime") ->
          tv_sec (fst (time_am t')) = tv_sec (fst (time_am t))
          /\ tv_sec (snd (time_am t')) = tv_sec (snd (time_am t)))
      /\ (forall tp tm,
             strptime s (date_time_fmt s) (set_tm_isdst tm_zero (-1))
             = Some (tp, tm) ->
             status_code (fst (fst (touch_parse_frac t s tp w))) <> 0 ->
             time_am t' = time_am t)
      /\ (date_time_rejected s = true
          \/ strptime s (date_time_fmt s) (set_tm_isdst tm_zero (-1)) = None ->
          time_am t' = time_am t))
  /\ (forall t' w',
      touch_parse_time t s w = (t', w') ->
      status_code t' <> 0 ->
      status_code t' = EXIT_FAILURE
      /\ tv_nsec (fst (time_am t')) = tv_nsec (fst (time_am t))
      /\ tv_nsec (snd (time_am t')) = tv_nsec (snd (time_am t))
      /\ (hd_error (w_trace w') <> Some (EvWarn true "mktime") ->
          time_am t' = time_am t))
  /\ (forall tp t' tp' w',
      touch_parse_frac t s tp w = (t', tp', w') ->
      status_code t' <> 0 ->
      status_code t' = EXIT_FAILURE /\ time_am t' = time_am t)
  /\ (forall opts1 opts2 operands,
      status_code (fst (touch_options touch_zero opts1 w)) <> 0 ->
      let r := (t1 <- touch_options touch_zero (opts1 ++ opts2)%list ;;
                touch_files t1 operands) w in
      status_code (fst r) <> 0 /\ w_files (snd r) = w_files w).
Proof.
  intros H0. split; [|split; [|split]].
  - intros t' w' Hrun Hne.
    destruct (touch_parse_date_time_keeps t s w t' w' Hrun)
      as (_ & _ & Hst & _ & Hsec & Hok).
    assert (status_code t' = EXIT_FAILURE) as Hfail
        by (destruct Hst as [Hst|Hst]; [congruence | assumption]).
    split; [assumption|]. split; [|split].
    + intros Hhd. apply Hsec; [|assumption].
      intros tm tr Htr. apply Hne. exact (Hok tm tr Htr).
    + intros tp tm Hstrp Hfr.
      destruct (date_time_rejected s) eqn:Hacc.
      { unfold touch_parse_date_time in Hrun. rewrite Hacc in Hrun.
        inversion Hrun. reflexivity. }
      destruct (touch_parse_frac t s tp w) as [[t1 tp1] w1] eqn:Hfrac.
      cbn [fst] in Hfr.
      destruct (touch_parse_frac_keeps t s tp w t1 tp1 w1 Hfrac)
        as (_ & _ & _ & Kst & _).
      destruct (date_time_tail_failed t s w tp tm t1 tp1 w1 t' w'
                  Hacc Hstrp Hfrac Hfr Hrun) as (_ & Ham & _).
      destruct Kst as [Kst|[_ Kam]]; [congruence|]. congruence.
    + intros Hrej. unfold touch_parse_date_time in Hrun.
      destruct (date_time_rejected s); [inversion Hrun; reflexivity|].
      destruct Hrej as [Hrej|Hrej]; [discriminate|].
      rewrite Hrej in Hrun. inversion Hrun. reflexivity.
  - intros t' w' Hrun Hne.
    destruct (touch_parse_time_keeps t s w t' w' Hrun)
      as (_ & _ & _ & Hst & _ & Hn1 & Hn2 & Ham & Hok).
    assert (status_code t' = EXIT_FAILURE) as Hfail
        by (destruct Hst as [Hst|Hst]; [congruence | assumption]).
    repeat split; try assumption.
    intros Hhd. apply Ham; [|assumption].
    intros tm tr Htr. apply Hne. rewrite (Hok tm tr Htr). assumption.
  - intros tp t' tp' w' Hrun Hne.
    destruct (touch_parse_frac_keeps t s tp w t' tp' w' Hrun)
      as (_ & _ & _ & Kst & _).
    destruct Kst as [Kst|[Kst Kam]]; [congruence|]. split; assumption.
  - intros opts1 opts2 operands Hst.
    apply failed_option_touches_nothing. assumption.
Qed.

Lemma malformed_spec_effects_witness :
  let r := touch_parse_date_time touch_zero "2007-11-12T10:15:30,5x"
                                 (example_world no_files) in
  status_code (fst r) = EXIT_FAILURE
  /\ tv_sec (fst (time_am (fst r))) = 0
  /\ tv_sec (snd (time_am (fst r))) = 0.
Proof.
  cbv zeta.
  destruct (proj1 (malformed_spec_effects touch_zero "2007-11-12T10:15:30,5x"
                     (example_world no_files) eq_refl)
              (fst (touch_parse_date_time touch_zero "2007-11-12T10:15:30,5x"
                      (example_world no_files)))
              (snd (touch_parse_date_time touch_zero "2007-11-12T10:15:30,5x"
                      (example_world no_files)))
              (surjective_pairing _) ltac:(vm_compute; discriminate))
    as (H1 & H2 & _).
  split; [exact H1|]. apply H2. vm_compute. discriminate.
Defined.
